(** * Pizzería La Fornace: kitchen panel (admin/cocina.js) and shared
      helpers (scripts.js)

    A shallow embedding of the order-status descriptors, the order list
    (filter, sort, cards), the kitchen ticket and the status-change
    handler, with the properties of the specification stated over it.

    Conventions of the embedding
    - A JavaScript string is a [string] holding the UTF-8 bytes of its
      text; [+] on strings is [+:+].
    - A JavaScript number that holds an integer is a [Z].  Doubles carry
      integers exactly up to 2^53; what the engine prints beyond that
      range is left to the platform ([Plataforma]).
    - A product of two such numbers is the exact integer; when it leaves
      the safe range its text is again the platform's.
    - A property that may be absent from an object read from JSON is an
      [option]; [None] is JavaScript's [undefined].
    - What the browser provides (Date parsing and es-CL formatting of
      dates, locale data) is a field of [Plataforma]. *)

From Stdlib Require Import ZArith String Ascii List DecimalString Lia.
From stdpp Require Import gmap strings list fin_maps sorting.

Open Scope Z_scope.

(** ** Characters and small string helpers *)

(** The line feed that [lineas.join('\n')] puts between lines. *)
Definition salto : string := String (ascii_of_nat 10) EmptyString.

(** The double quote of the HTML attributes. *)
Definition comilla : ascii := ascii_of_nat 34.

(** HTML literals of the source are written with a backquote where the
    source has a double quote (the source has no backquote inside the
    literals embedded here); [html] puts the double quotes back. *)
Fixpoint html (s : string) : string :=
  match s with
  | EmptyString => EmptyString
  | String c r =>
      String (if Ascii.eqb c (ascii_of_nat 96) then comilla else c) (html r)
  end.

(** ** The platform *)

Record Plataforma := {
  (** [new Date(s).getTime()]; [None] is NaN (an invalid date). *)
  Date_getTime : string -> option Z;
  (** [new Date(s).toLocaleDateString('es-CL')]. *)
  toLocaleDateString_esCL : string -> string;
  (** [new Date(s).toLocaleTimeString('es-CL', {hour: '2-digit', minute: '2-digit'})]. *)
  toLocaleTimeString_esCL : string -> string;
  (** Whether the es-CL locale data group a four-digit integer
      (CLDR's minimumGroupingDigits is 1) or leave it bare (it is 2). *)
  agrupa_cuatro_cifras : bool;
  (** [String(z)] and [z.toLocaleString('es-CL')] for an integer beyond
      the safe range. *)
  Number_toString_grande : Z -> string;
  toLocaleString_grande : Z -> string;
  (** [(parseFloat(s) || 0).toLocaleString('es-CL')] for a text [s] whose
      numeral is not a plain safe integer (a fraction, an exponent,
      Infinity, leading Unicode white space, more than 2^53). *)
  toLocaleString_no_entero : string -> string
}.

(** ** Numbers as text *)

(** Number.MAX_SAFE_INTEGER is 2^53 - 1; every integer of magnitude up to
    2^53 is a double and prints with its exact digits. *)
Definition seguro (z : Z) : bool := Z.abs z <=? 2 ^ 53.

Definition cifras (z : Z) : string :=
  NilZero.string_of_uint (N.to_uint (Z.to_N (Z.abs z))).

Definition signo (z : Z) : string := if z <? 0 then "-" else "".

(** Groups of three from the right, on the reversed digits. *)
Fixpoint agrupar_inv (l : list ascii) : list ascii :=
  match l with
  | a :: b :: c :: ((_ :: _) as r) => a :: b :: c :: "."%char :: agrupar_inv r
  | _ => l
  end.

Definition agrupar (s : string) : string :=
  string_of_list_ascii (rev (agrupar_inv (rev (list_ascii_of_string s)))).

(** ** Values handed to the price formatter *)

(** The values [formatearPrecio] is called with: a number, a text of the
    API, or nothing. *)
Inductive Monto :=
| MNum (z : Z)
| MStr (s : string)
| MUndef.

(** What [parseFloat] reads. *)
Inductive Numero :=
| Fin (z : Z)
| NaN
| NoEntero (s : string).

Definition es_blanco (c : ascii) : bool :=
  let n := nat_of_ascii c in
  ((9 <=? n) && (n <=? 13) || (n =? 32))%nat.

Definition es_cifra (c : ascii) : bool :=
  let n := nat_of_ascii c in ((48 <=? n) && (n <=? 57))%nat.

Fixpoint saltar_blancos (s : string) : string :=
  match s with
  | String c r => if es_blanco c then saltar_blancos r else s
  | EmptyString => s
  end.

(** The value of the leading decimal digits and what follows them;
    [None] when there is no digit. *)
Fixpoint leer_cifras (acc : option Z) (s : string) : option Z * string :=
  match s with
  | String c r =>
      if es_cifra c
      then leer_cifras
             (Some (10 * default 0 acc + Z.of_nat (nat_of_ascii c - 48))) r
      else (acc, s)
  | EmptyString => (acc, s)
  end.

Definition empieza_con (c : ascii) (s : string) : bool :=
  match s with
  | String d _ => Ascii.eqb c d
  | EmptyString => false
  end.

(** [parseFloat] on a text: leading white space, a sign, decimal digits.
    A numeral that goes on with a fraction or an exponent, Infinity, a
    text that may start with Unicode white space, and a value beyond the
    safe range are [NoEntero]. *)
Definition parseFloat_texto (s : string) : Numero :=
  let t := saltar_blancos s in
  match t with
  | EmptyString => NaN
  | String c r =>
      if (128 <=? nat_of_ascii c)%nat then NoEntero s else
      let '(neg, u) :=
        if Ascii.eqb c "-" then (true, r)
        else if Ascii.eqb c "+" then (false, r) else (false, t) in
      match leer_cifras None u with
      | (Some v, resto) =>
          if empieza_con "." resto || empieza_con "e" resto
             || empieza_con "E" resto
          then NoEntero s
          else if seguro v then Fin (if neg then - v else v) else NoEntero s
      | (None, _) =>
          if empieza_con "." u || empieza_con "I" u then NoEntero s else NaN
      end
  end.

(** ** cocina.js: obtenerInfoEstadoCocina *)

(** A status descriptor as its readers see it: each property is there or
    [undefined]. *)
Record InfoEstado := {
  texto : option string;
  clase : option string;
  colorBorder : option string;
  mostrarBotonEstado : option bool;
  botonTexto : option string;
  botonClase : option string;
  siguienteEstado : option string
}.

(** The properties the object literal [estados] is written with. *)
Definition tabla_estados : list (string * InfoEstado) :=
  [
    ("pendiente",
      {| texto := Some "Pendiente"; clase := Some "bg-secondary";
         colorBorder := Some "secondary"; mostrarBotonEstado := Some true;
         botonTexto := Some "Confirmar Pedido"; botonClase := Some "primary";
         siguienteEstado := Some "confirmado" |});
    ("confirmado",
      {| texto := Some "Confirmado"; clase := Some "bg-primary";
         colorBorder := Some "primary"; mostrarBotonEstado := Some true;
         botonTexto := Some "Iniciar Preparación"; botonClase := Some "warning";
         siguienteEstado := Some "en_preparacion" |});
    ("en_preparacion",
      {| texto := Some "En Preparación"; clase := Some "bg-warning text-dark";
         colorBorder := Some "warning"; mostrarBotonEstado := Some true;
         botonTexto := Some "Listo para Envío"; botonClase := Some "info";
         siguienteEstado := Some "en_camino" |});
    ("en_camino",
      {| texto := Some "En Camino"; clase := Some "bg-info";
         colorBorder := Some "info"; mostrarBotonEstado := Some false;
         botonTexto := None; botonClase := None; siguienteEstado := None |});
    ("entregado",
      {| texto := Some "Entregado"; clase := Some "bg-success";
         colorBorder := Some "success"; mostrarBotonEstado := Some false;
         botonTexto := None; botonClase := None; siguienteEstado := None |});
    ("anulado",
      {| texto := Some "Anulado"; clase := Some "bg-danger";
         colorBorder := Some "danger"; mostrarBotonEstado := Some false;
         botonTexto := None; botonClase := None; siguienteEstado := None |});
    ("cancelado",
      {| texto := Some "Cancelado"; clase := Some "bg-danger";
         colorBorder := Some "danger"; mostrarBotonEstado := Some false;
         botonTexto := None; botonClase := None; siguienteEstado := None |})
  ].

(** The object [estados]: its own properties. *)
Definition estados : gmap string InfoEstado := list_to_map tabla_estados.

(** [estados] is an ordinary object: a key it does not own is looked up
    in Object.prototype, whose properties are these (ECMA-262 20.1.3 and
    B.2.2).  Each holds a function, or for [__proto__] the prototype
    object: a truthy value with none of the descriptor's properties. *)
Definition Object_prototype : gset string :=
  list_to_set [
    "constructor"; "hasOwnProperty"; "isPrototypeOf"; "propertyIsEnumerable";
    "toLocaleString"; "toString"; "valueOf"; "__proto__";
    "__defineGetter__"; "__defineSetter__";
    "__lookupGetter__"; "__lookupSetter__" ].

Definition heredado : InfoEstado :=
  {| texto := None; clase := None; colorBorder := None;
     mostrarBotonEstado := None; botonTexto := None; botonClase := None;
     siguienteEstado := None |}.

(** [return estados[estado] || { texto: estado, clase: 'bg-secondary',
    colorBorder: 'secondary', mostrarBotonEstado: false };] *)
Definition obtenerInfoEstadoCocina (estado : string) : InfoEstado :=
  match estados !! estado with
  | Some info => info
  | None =>
      if decide (estado ∈ Object_prototype) then heredado
      else {| texto := Some estado; clase := Some "bg-secondary";
              colorBorder := Some "secondary";
              mostrarBotonEstado := Some false;
              botonTexto := None; botonClase := None;
              siguienteEstado := None |}
  end.

(** ** JavaScript coercions used by the panel *)

(** [undefined] concatenated to a string. *)
Definition texto_de (o : option string) : string := default "undefined" o.

(** Truthiness of a string property: present and not empty. *)
Definition hay_texto (o : option string) : bool :=
  match o with
  | Some s => negb (String.eqb s "")
  | None => false
  end.

(** Truthiness of a number property: present and not zero. *)
Definition hay_numero (o : option Z) : bool :=
  match o with
  | Some z => negb (z =? 0)
  | None => false
  end.

(** Truthiness of a boolean property. *)
Definition hay_bool (o : option bool) : bool := default false o.

(** ** The order as the API returns it (GET /pedidos)

    Amounts are integers (CLP has no decimals).  The properties the code
    guards before reading are optional. *)

Module Extra.
Record t := { nombre : string; precio : Z }.
End Extra.

Module Tamanio.
Record t := { nombre : option string }.
End Tamanio.

Module Item.
Record t := {
  cantidad : Z;
  nombre : string;
  tamanio : option Tamanio.t;
  extras : option (list Extra.t);
  notas : option string;
  precio_unitario : Z
}.
End Item.

Module ItemsJson.
Record t := { items : option (list Item.t) }.
End ItemsJson.

Module Orden.
Record t := {
  id : Z;
  estado : string;
  fecha : option string;
  items_json : option ItemsJson.t;
  direccion : string;
  telefono : string;
  instrucciones_especiales : option string;
  eta_minutos : option Z;
  subtotal : Z;
  costo_envio : Z;
  impuestos : Z;
  descuento : option Z;
  total : Z;
  metodo_pago : option string
}.
End Orden.

(** The pair that [formatearFechaHora] returns. *)
Module FechaHora.
Record t := { fecha : string; hora : string }.
End FechaHora.

(** [(orden.items_json && orden.items_json.items) ? orden.items_json.items : []] *)
Definition items_de (orden : Orden.t) : list Item.t :=
  match Orden.items_json orden with
  | Some j => default [] (ItemsJson.items j)
  | None => []
  end.

(** [item.extras && item.extras.length > 0]: the extras that are looped
    over. *)
Definition extras_de (item : Item.t) : list Extra.t :=
  match Item.extras item with
  | Some l => if (0 <? length l)%nat then l else []
  | None => []
  end.

Definition separador : string := "----------------------------------------".
Definition doble : string := "========================================".

(** ** Array.prototype.sort

    [comparefn] returns a number, [None] for NaN, which the sort reads
    as +0.  Since ES2019 the sort is stable, so under a consistent
    comparator its result is the one arrangement that is ordered and
    keeps equal elements in their input order, whatever the engine's
    algorithm; insertion computes it. *)

Section Sort.
Context {A : Type} (comparefn : A -> A -> option Z).

Fixpoint insertar (x : A) (l : list A) : list A :=
  match l with
  | [] => [x]
  | y :: r =>
      if default 0 (comparefn x y) <=? 0 then x :: y :: r
      else y :: insertar x r
  end.

Fixpoint Array_sort (l : list A) : list A :=
  match l with
  | [] => []
  | x :: r => insertar x (Array_sort r)
  end.
End Sort.

(** ** The page

    The elements the panel writes to.  [mensaje_container] is [None] on
    a page without that element (mostrarExito and mostrarError then do
    nothing). *)

Record Dom := {
  ordenes_container_innerHTML : string;
  ordenes_container_display : string;
  ordenes_vacias_display : string;
  ticket_contenido : string;
  modalTicket_visible : bool;
  mensaje_container : option string;
  ventanas_impresion : list string
}.

(** A request handed to [api]. *)
Inductive Peticion :=
| GET (endpoint : string)
| PATCH (endpoint : string) (estado : string).

(** How an awaited [api] call ends: the promise resolves or rejects with
    an Error carrying a message.  A GET of /pedidos resolves with an
    array of orders, or with something that is not an array ([None]). *)
Inductive Respuesta (A : Type) :=
| Resuelve (v : A)
| Rechaza (message : string).
Arguments Resuelve {A} v.
Arguments Rechaza {A} message.

(** The globals of cocina.js, the page, and the requests issued so far
    (latest first). *)
Record Estado := {
  ordenesActuales : list Orden.t;
  filtroActual : string;
  ordenSeleccionada : option Orden.t;
  dom : Dom;
  peticiones : list Peticion
}.

Definition con_dom (f : Dom -> Dom) (st : Estado) : Estado :=
  {| ordenesActuales := ordenesActuales st;
     filtroActual := filtroActual st;
     ordenSeleccionada := ordenSeleccionada st;
     dom := f (dom st);
     peticiones := peticiones st |}.

Definition con_ordenes (l : list Orden.t) (st : Estado) : Estado :=
  {| ordenesActuales := l;
     filtroActual := filtroActual st;
     ordenSeleccionada := ordenSeleccionada st;
     dom := dom st;
     peticiones := peticiones st |}.

Definition con_seleccion (o : option Orden.t) (st : Estado) : Estado :=
  {| ordenesActuales := ordenesActuales st;
     filtroActual := filtroActual st;
     ordenSeleccionada := o;
     dom := dom st;
     peticiones := peticiones st |}.

Definition con_peticion (p : Peticion) (st : Estado) : Estado :=
  {| ordenesActuales := ordenesActuales st;
     filtroActual := filtroActual st;
     ordenSeleccionada := ordenSeleccionada st;
     dom := dom st;
     peticiones := p :: peticiones st |}.

Definition poner_container (innerHTML : string) (d : Dom) : Dom :=
  {| ordenes_container_innerHTML := innerHTML;
     ordenes_container_display := ordenes_container_display d;
     ordenes_vacias_display := ordenes_vacias_display d;
     ticket_contenido := ticket_contenido d;
     modalTicket_visible := modalTicket_visible d;
     mensaje_container := mensaje_container d;
     ventanas_impresion := ventanas_impresion d |}.

Definition poner_display (container vacias : string) (d : Dom) : Dom :=
  {| ordenes_container_innerHTML := ordenes_container_innerHTML d;
     ordenes_container_display := container;
     ordenes_vacias_display := vacias;
     ticket_contenido := ticket_contenido d;
     modalTicket_visible := modalTicket_visible d;
     mensaje_container := mensaje_container d;
     ventanas_impresion := ventanas_impresion d |}.

Definition poner_ticket (textContent : string) (d : Dom) : Dom :=
  {| ordenes_container_innerHTML := ordenes_container_innerHTML d;
     ordenes_container_display := ordenes_container_display d;
     ordenes_vacias_display := ordenes_vacias_display d;
     ticket_contenido := textContent;
     modalTicket_visible := modalTicket_visible d;
     mensaje_container := mensaje_container d;
     ventanas_impresion := ventanas_impresion d |}.

Definition poner_modal (visible : bool) (d : Dom) : Dom :=
  {| ordenes_container_innerHTML := ordenes_container_innerHTML d;
     ordenes_container_display := ordenes_container_display d;
     ordenes_vacias_display := ordenes_vacias_display d;
     ticket_contenido := ticket_contenido d;
     modalTicket_visible := visible;
     mensaje_container := mensaje_container d;
     ventanas_impresion := ventanas_impresion d |}.

(** [contenedor.innerHTML = ...] when the element exists. *)
Definition poner_mensaje (innerHTML : string) (d : Dom) : Dom :=
  {| ordenes_container_innerHTML := ordenes_container_innerHTML d;
     ordenes_container_display := ordenes_container_display d;
     ordenes_vacias_display := ordenes_vacias_display d;
     ticket_contenido := ticket_contenido d;
     modalTicket_visible := modalTicket_visible d;
     mensaje_container :=
       match mensaje_container d with
       | Some _ => Some innerHTML
       | None => None
       end;
     ventanas_impresion := ventanas_impresion d |}.

Definition abrir_ventana (documento : string) (d : Dom) : Dom :=
  {| ordenes_container_innerHTML := ordenes_container_innerHTML d;
     ordenes_container_display := ordenes_container_display d;
     ordenes_vacias_display := ordenes_vacias_display d;
     ticket_contenido := ticket_contenido d;
     modalTicket_visible := modalTicket_visible d;
     mensaje_container := mensaje_container d;
     ventanas_impresion := documento :: ventanas_impresion d |}.

(** ** scripts.js: mostrarExito, mostrarError

    The markup is the template literal of the source, line breaks and
    indentation included.  The timer by which mostrarExito clears the
    message five seconds later is outside the embedding. *)

Definition alerta (tipo mensaje : string) : string :=
  salto +:+ html "      <div class=`alert alert-" +:+ tipo
    +:+ html " alert-dismissible fade show` role=`alert`>" +:+ salto
    +:+ "        " +:+ mensaje +:+ salto
    +:+ html "        <button type=`button` class=`btn-close` data-bs-dismiss=`alert` aria-label=`Close`></button>"
    +:+ salto
    +:+ "      </div>" +:+ salto
    +:+ "    ".

Definition mostrarExito (mensaje : string) (st : Estado) : Estado :=
  con_dom (poner_mensaje (alerta "success" mensaje)) st.

Definition mostrarError (mensaje : string) (st : Estado) : Estado :=
  con_dom (poner_mensaje (alerta "danger" mensaje)) st.

(** The statuses the kitchen works on, the list of the 'todos' filter. *)
Definition estados_cocina : list string :=
  [ "pendiente"; "confirmado"; "en_preparacion"; "en_camino" ].

(** [if (filtroActual === 'todos') ordenesActuales.filter(o => [...].indexOf(o.estado) !== -1)
     else ordenesActuales.filter(o => o.estado === filtroActual)] *)
Definition filtrar (filtro : string) (ordenes : list Orden.t) : list Orden.t :=
  if decide (filtro = "todos")
  then filter (fun o => Orden.estado o ∈ estados_cocina) ordenes
  else filter (fun o => Orden.estado o = filtro) ordenes.

Section Panel.

Variable P : Plataforma.

(** [String(z)], as string concatenation coerces a number. *)
Definition Number_toString (z : Z) : string :=
  if seguro z then signo z +:+ cifras z else Number_toString_grande P z.

(** [z.toLocaleString('es-CL')] for an integer: no fraction digits, groups
    of three separated by a full stop. *)
Definition Number_toLocaleString (z : Z) : string :=
  if seguro z then
    let ds := cifras z in
    signo z +:+
      (if (String.length ds =? 4)%nat && negb (agrupa_cuatro_cifras P)
       then ds else agrupar ds)
  else toLocaleString_grande P z.

(** ** scripts.js: formatearPrecio *)

Definition parseFloat (precio : Monto) : Numero :=
  match precio with
  | MNum z => Fin z
  | MStr s => parseFloat_texto s
  | MUndef => NaN
  end.

(** [function formatearPrecio(precio)]:
    [const precioNumerico = parseFloat(precio) || 0;
     return '$' + precioNumerico.toLocaleString('es-CL');] *)
Definition formatearPrecio (precio : Monto) : string :=
  match parseFloat precio with
  | Fin z => "$" +:+ Number_toLocaleString z
  | NaN => "$" +:+ Number_toLocaleString 0
  | NoEntero s => "$" +:+ toLocaleString_no_entero P s
  end.



(** ** cocina.js: formatearFechaHora *)

Definition formatearFechaHora (fechaISO : option string) : FechaHora.t :=
  if negb (hay_texto fechaISO)
  then {| FechaHora.fecha := "Sin fecha"; FechaHora.hora := "" |}
  else {| FechaHora.fecha := toLocaleDateString_esCL P (texto_de fechaISO);
          FechaHora.hora := toLocaleTimeString_esCL P (texto_de fechaISO) |}.

(** ** cocina.js: generarTicket *)

(** The array literal [lineas] starts with. *)
Definition lineas_cabecera (orden : Orden.t) : list string :=
  let fechaHora := formatearFechaHora (Orden.fecha orden) in
  [ doble;
    "        PIZZERÍA LA FORNACE";
    "        TICKET DE COCINA";
    doble;
    "";
    "Orden #: " +:+ Number_toString (Orden.id orden);
    "Fecha: " +:+ FechaHora.fecha fechaHora;
    "Hora: " +:+ FechaHora.hora fechaHora;
    "";
    separador;
    "ITEMS DEL PEDIDO:";
    separador;
    "" ].

(** [var itemLine = item.cantidad + 'x ' + item.nombre;
     if (item.tamanio && item.tamanio.nombre)
       itemLine += ' (' + item.tamanio.nombre + ')';]
    The card of the order list builds its [itemText] the same way. *)
Definition linea_item (item : Item.t) : string :=
  let itemLine :=
    Number_toString (Item.cantidad item) +:+ "x " +:+ Item.nombre item in
  match Item.tamanio item with
  | Some t =>
      if hay_texto (Tamanio.nombre t)
      then itemLine +:+ " (" +:+ texto_de (Tamanio.nombre t) +:+ ")"
      else itemLine
  | None => itemLine
  end.

(** What one turn of [items.forEach] pushes. *)
Definition lineas_item (item : Item.t) : list string :=
  [ linea_item item ]
  ++ map (fun extra =>
            "    + " +:+ Extra.nombre extra +:+ " ("
              +:+ formatearPrecio (MNum (Extra.precio extra)) +:+ ")")
         (extras_de item)
  ++ (if hay_texto (Item.notas item)
      then [ "    Notas: " +:+ texto_de (Item.notas item) ] else [])
  ++ [ "    Precio: "
         +:+ formatearPrecio
               (MNum (Item.precio_unitario item * Item.cantidad item));
       "" ].

Definition lineas_direccion (orden : Orden.t) : list string :=
  [ separador; "DIRECCIÓN DE ENTREGA:"; separador;
    Orden.direccion orden;
    "Tel: " +:+ Orden.telefono orden;
    "" ].

Definition lineas_instrucciones (orden : Orden.t) : list string :=
  if hay_texto (Orden.instrucciones_especiales orden)
  then [ "INSTRUCCIONES ESPECIALES:";
         texto_de (Orden.instrucciones_especiales orden);
         "" ]
  else [].

Definition lineas_eta (orden : Orden.t) : list string :=
  if hay_numero (Orden.eta_minutos orden)
  then [ "ETA: " +:+ Number_toString (default 0 (Orden.eta_minutos orden))
           +:+ " minutos";
         "" ]
  else [].

(** [orden.descuento > 0]; [undefined > 0] is false. *)
Definition hay_descuento (orden : Orden.t) : bool :=
  match Orden.descuento orden with
  | Some d => 0 <? d
  | None => false
  end.

Definition lineas_totales (orden : Orden.t) : list string :=
  [ separador;
    "SUBTOTAL: " +:+ formatearPrecio (MNum (Orden.subtotal orden));
    "ENVÍO: " +:+ formatearPrecio (MNum (Orden.costo_envio orden));
    "IVA: " +:+ formatearPrecio (MNum (Orden.impuestos orden)) ]
  ++ (if hay_descuento orden
      then [ "DESCUENTO: -"
               +:+ formatearPrecio (MNum (default 0 (Orden.descuento orden))) ]
      else [])
  ++ [ separador;
       "TOTAL: " +:+ formatearPrecio (MNum (Orden.total orden));
       separador;
       "" ].

Definition lineas_pie (orden : Orden.t) : list string :=
  [ "Estado: " +:+ texto_de (texto (obtenerInfoEstadoCocina (Orden.estado orden)));
    "Método de pago: "
      +:+ (if hay_texto (Orden.metodo_pago orden)
           then texto_de (Orden.metodo_pago orden) else "No especificado");
    "";
    doble ].

(** The array [lineas] when [generarTicket] returns. *)
Definition lineas_ticket (orden : Orden.t) : list string :=
  lineas_cabecera orden
  ++ concat (map lineas_item (items_de orden))
  ++ lineas_direccion orden
  ++ lineas_instrucciones orden
  ++ lineas_eta orden
  ++ lineas_totales orden
  ++ lineas_pie orden.

(** [return lineas.join('\n');] *)
Definition generarTicket (orden : Orden.t) : string :=
  String.concat salto (lineas_ticket orden).

(** ** cocina.js: renderizarOrdenes *)

(** [new Date(o.fecha).getTime()]; a missing [fecha] gives an invalid
    date. *)
Definition tiempo (o : Orden.t) : option Z :=
  match Orden.fecha o with
  | Some s => Date_getTime P s
  | None => None
  end.

(** [function(a, b) { return new Date(b.fecha) - new Date(a.fecha); }]
    The difference of two time values keeps its sign as a double. *)
Definition por_fecha (a b : Orden.t) : option Z :=
  match tiempo b, tiempo a with
  | Some tb, Some ta => Some (tb - ta)
  | _, _ => None
  end.

(** [ordenesFiltradas] after the filter and the sort. *)
Definition ordenes_visibles (filtro : string) (ordenes : list Orden.t)
  : list Orden.t :=
  Array_sort por_fecha (filtrar filtro ordenes).

(** The text of one item in the card ([items.map(function(item) ...)]). *)
Definition resumen_item (item : Item.t) : string :=
  let itemText := linea_item item in
  let itemText :=
    if (0 <? length (extras_de item))%nat
    then itemText +:+ html "<br><small class=`text-success`>+ "
           +:+ String.concat ", " (map Extra.nombre (extras_de item))
           +:+ "</small>"
    else itemText in
  if hay_texto (Item.notas item)
  then itemText +:+ html "<br><small class=`text-muted`>Notas: "
         +:+ texto_de (Item.notas item) +:+ "</small>"
  else itemText.

Definition icono_ticket : string :=
  html "<svg xmlns=`http://www.w3.org/2000/svg` width=`16` height=`16` fill=`currentColor` class=`bi bi-receipt me-1` viewBox=`0 0 16 16`>"
  +:+ html "<path d=`M1.92.506a.5.5 0 0 1 .434.14L3 1.293l.646-.647a.5.5 0 0 1 .708 0L5 1.293l.646-.647a.5.5 0 0 1 .708 0L7 1.293l.646-.647a.5.5 0 0 1 .708 0L9 1.293l.646-.647a.5.5 0 0 1 .708 0l.646.647.646-.647a.5.5 0 0 1 .708 0l.646.647.646-.647a.5.5 0 0 1 .801.13l.5 1A.5.5 0 0 1 15 2v12a.5.5 0 0 1-.053.224l-.5 1a.5.5 0 0 1-.8.13L13 14.707l-.646.647a.5.5 0 0 1-.708 0L11 14.707l-.646.647a.5.5 0 0 1-.708 0L9 14.707l-.646.647a.5.5 0 0 1-.708 0L7 14.707l-.646.647a.5.5 0 0 1-.708 0L5 14.707l-.646.647a.5.5 0 0 1-.708 0L3 14.707l-.646.647a.5.5 0 0 1-.801-.13l-.5-1A.5.5 0 0 1 1 14V2a.5.5 0 0 1 .053-.224l.5-1a.5.5 0 0 1 .367-.27z`/>"
  +:+ "</svg>".

(** The card up to and including the 'Ver Ticket' button: the first
    [html += ...] of the loop body. *)
Definition tarjeta_cuerpo (orden : Orden.t) : string :=
  let estadoInfo := obtenerInfoEstadoCocina (Orden.estado orden) in
  let fechaHora := formatearFechaHora (Orden.fecha orden) in
  let resumenItems :=
    String.concat "<br>" (map resumen_item (items_de orden)) in
  html "<div class=`card mb-3 shadow-sm border-0 border-start border-"
    +:+ texto_de (colorBorder estadoInfo) +:+ html " border-4`>"
  +:+ html "<div class=`card-body`>"
  +:+ html "<div class=`row`>"
  +:+ html "<div class=`col-md-8`>"
  +:+ html "<div class=`d-flex justify-content-between align-items-start mb-2`>"
  +:+ html "<h5 class=`mb-0`>Orden #" +:+ Number_toString (Orden.id orden)
    +:+ "</h5>"
  +:+ html "<span class=`badge " +:+ texto_de (clase estadoInfo)
    +:+ html " fs-6`>" +:+ texto_de (texto estadoInfo) +:+ "</span>"
  +:+ "</div>"
  +:+ html "<p class=`text-muted mb-2`>"
  +:+ "<small>"
  +:+ "<strong>Fecha:</strong> " +:+ FechaHora.fecha fechaHora +:+ " "
    +:+ FechaHora.hora fechaHora
  +:+ (if hay_numero (Orden.eta_minutos orden)
       then "<br><strong>ETA:</strong> "
              +:+ Number_toString (default 0 (Orden.eta_minutos orden))
              +:+ " minutos"
       else "")
  +:+ "</small>"
  +:+ "</p>"
  +:+ html "<p class=`mb-2`><strong>Items:</strong><br>"
    +:+ (if String.eqb resumenItems "" then "Sin items" else resumenItems)
    +:+ "</p>"
  +:+ html "<p class=`mb-1`><small class=`text-muted`><strong>Dirección:</strong> "
    +:+ Orden.direccion orden +:+ "</small></p>"
  +:+ html "<p class=`mb-0`><small class=`text-muted`><strong>Teléfono:</strong> "
    +:+ Orden.telefono orden +:+ "</small></p>"
  +:+ (if hay_texto (Orden.instrucciones_especiales orden)
       then html "<p class=`mb-0 mt-2`><small class=`text-warning`><strong>Instrucciones:</strong> "
              +:+ texto_de (Orden.instrucciones_especiales orden)
              +:+ "</small></p>"
       else "")
  +:+ "</div>"
  +:+ html "<div class=`col-md-4 text-md-end mt-3 mt-md-0`>"
  +:+ html "<p class=`fs-5 fw-bold text-primary mb-3`>"
    +:+ formatearPrecio (MNum (Orden.total orden)) +:+ "</p>"
  +:+ html "<button class=`btn btn-outline-primary btn-sm mb-2 w-100` onclick=`verTicket("
    +:+ Number_toString (Orden.id orden) +:+ html ")`>"
  +:+ icono_ticket
  +:+ "Ver Ticket"
  +:+ "</button>".

(** [if (estadoInfo.mostrarBotonEstado) html += '<button ...>';] *)
Definition boton_siguiente (orden : Orden.t) : string :=
  let estadoInfo := obtenerInfoEstadoCocina (Orden.estado orden) in
  if hay_bool (mostrarBotonEstado estadoInfo)
  then html "<button class=`btn btn-" +:+ texto_de (botonClase estadoInfo)
         +:+ html " btn-sm w-100` onclick=`cambiarEstadoOrden("
         +:+ Number_toString (Orden.id orden) +:+ ", '"
         +:+ texto_de (siguienteEstado estadoInfo) +:+ html "')`>"
         +:+ texto_de (botonTexto estadoInfo)
         +:+ "</button>"
  else "".

(** [if (orden.estado === 'en_camino') html += '<button ...>';] *)
Definition boton_entregado (orden : Orden.t) : string :=
  if String.eqb (Orden.estado orden) "en_camino"
  then html "<button class=`btn btn-success btn-sm w-100 mt-2` onclick=`cambiarEstadoOrden("
         +:+ Number_toString (Orden.id orden) +:+ html ", 'entregado')`>"
         +:+ "Marcar Entregado"
         +:+ "</button>"
  else "".

(** What one turn of [ordenesFiltradas.forEach] adds to [html]. *)
Definition tarjeta (orden : Orden.t) : string :=
  tarjeta_cuerpo orden
  +:+ boton_siguiente orden
  +:+ boton_entregado orden
  +:+ "</div></div></div></div>".

Definition renderizarOrdenes (st : Estado) : Estado :=
  let ordenesFiltradas :=
    ordenes_visibles (filtroActual st) (ordenesActuales st) in
  if (length ordenesFiltradas =? 0)%nat
  then con_dom (poner_display "none" "block") st
  else con_dom
         (fun d =>
            poner_container
              (String.concat "" (map tarjeta ordenesFiltradas))
              (poner_display "block" "none" d))
         st.

(** ** cocina.js: cargarOrdenes

    [respuesta] is how the awaited [api.get('/pedidos')] ends. *)
Definition cargarOrdenes (respuesta : Respuesta (option (list Orden.t)))
    (st : Estado) : Estado :=
  let st :=
    con_dom
      (poner_container
         (html "<div class=`text-center py-5`><div class=`spinner-border text-primary` role=`status`></div><p class=`mt-2`>Cargando órdenes...</p></div>"))
      st in
  let st := con_peticion (GET "/pedidos") st in
  match respuesta with
  | Resuelve v => renderizarOrdenes (con_ordenes (default [] v) st)
  | Rechaza message =>
      con_dom
        (poner_container
           (html "<div class=`alert alert-danger`>"
            +:+ "<strong>Error al cargar órdenes:</strong> " +:+ message
            +:+ "<br><small>Verifica que la API esté funcionando y tengas permisos de administrador/cocinero.</small>"
            +:+ "</div>"))
        st
  end.

(** ** cocina.js: verTicket, imprimirTicket *)

Definition verTicket (ordenId : Z) (st : Estado) : Estado :=
  let st :=
    con_seleccion
      (List.find (fun o => Orden.id o =? ordenId) (ordenesActuales st)) st in
  match ordenSeleccionada st with
  | None => st
  | Some orden =>
      con_dom (fun d => poner_modal true (poner_ticket (generarTicket orden) d)) st
  end.

(** The document written to the print window ([window.open] is taken to
    return a window). *)
Definition documento_impresion (orden : Orden.t) : string :=
  "<!DOCTYPE html>"
  +:+ "<html>"
  +:+ "<head>"
  +:+ "<title>Ticket Orden #" +:+ Number_toString (Orden.id orden) +:+ "</title>"
  +:+ "<style>"
  +:+ html "body { font-family: `Courier New`, monospace; font-size: 12px; padding: 10px; max-width: 300px; margin: 0 auto; }"
  +:+ "pre { white-space: pre-wrap; word-wrap: break-word; }"
  +:+ "@media print { body { margin: 0; padding: 5px; } }"
  +:+ "</style>"
  +:+ "</head>"
  +:+ "<body>"
  +:+ "<pre>" +:+ generarTicket orden +:+ "</pre>"
  +:+ "<script>window.onload = function() { window.print(); window.onafterprint = function() { window.close(); }; };</script>"
  +:+ "</body>"
  +:+ "</html>".

Definition imprimirTicket (st : Estado) : Estado :=
  match ordenSeleccionada st with
  | None => st
  | Some orden =>
      let st := con_dom (abrir_ventana (documento_impresion orden)) st in
      let st := mostrarExito "Ticket enviado a impresora" st in
      con_dom (poner_modal false) st
  end.

(** ** cocina.js: cambiarEstadoOrden

    [patch] is how the awaited [api.patch] ends and [get] how the
    [api.get] of the reload ends, if it is issued. *)
Definition cambiarEstadoOrden (ordenId : Z) (nuevoEstado : string)
    (patch : Respuesta unit) (get : Respuesta (option (list Orden.t)))
    (st : Estado) : Estado :=
  let st :=
    con_peticion
      (PATCH ("/pedidos/" +:+ Number_toString ordenId +:+ "/estado") nuevoEstado)
      st in
  match patch with
  | Resuelve _ =>
      let nombreEstado := texto_de (texto (obtenerInfoEstadoCocina nuevoEstado)) in
      let st :=
        mostrarExito
          ("Orden #" +:+ Number_toString ordenId +:+ " actualizada a: "
           +:+ nombreEstado) st in
      cargarOrdenes get st
  | Rechaza message =>
      mostrarError ("Error al actualizar orden: " +:+ message) st
  end.

End Panel.

(** ** Vocabulary of the properties *)


(** [x] occurs in [s]. *)
Definition Infijo (x s : string) : Prop :=
  exists pre post, s = pre +:+ x +:+ post.

(** [s] ends with [x]. *)
Definition Sufijo (x s : string) : Prop := exists pre, s = pre +:+ x.

(** The time value with which a dated order is sorted. *)
Definition tiempo_ms (P : Plataforma) (o : Orden.t) : Z :=
  default 0 (tiempo P o).


(** ** Sample data of the examples *)

(** A browser in Santiago (UTC-4 in May) that knows three timestamps.
    The examples stay within the safe integers, so the fields for what
    lies beyond are never consulted. *)
Definition navegador_muestra : Plataforma :=
  {| Date_getTime := fun s =>
       if String.eqb s "2024-05-01T12:00:00Z" then Some 1714564800000
       else if String.eqb s "2024-05-01T12:30:00Z" then Some 1714566600000
       else if String.eqb s "2024-05-02T09:15:00Z" then Some 1714641300000
       else None;
     toLocaleDateString_esCL := fun s =>
       if String.eqb s "2024-05-01T12:00:00Z" then "01-05-2024"
       else if String.eqb s "2024-05-01T12:30:00Z" then "01-05-2024"
       else if String.eqb s "2024-05-02T09:15:00Z" then "02-05-2024"
       else "Invalid Date";
     toLocaleTimeString_esCL := fun s =>
       if String.eqb s "2024-05-01T12:00:00Z" then "08:00"
       else if String.eqb s "2024-05-01T12:30:00Z" then "08:30"
       else if String.eqb s "2024-05-02T09:15:00Z" then "05:15"
       else "Invalid Date";
     agrupa_cuatro_cifras := true;
     Number_toString_grande := fun z => signo z +:+ cifras z;
     toLocaleString_grande := fun z => signo z +:+ agrupar (cifras z);
     toLocaleString_no_entero := fun s => s |}.

(** The order of the specification's scenario. *)
Definition orden_77 : Orden.t :=
  {| Orden.id := 77;
     Orden.estado := "pendiente";
     Orden.fecha := None;
     Orden.items_json :=
       Some {| ItemsJson.items := Some [
         {| Item.cantidad := 2; Item.nombre := "Hawaiana";
            Item.tamanio := Some {| Tamanio.nombre := Some "grande" |};
            Item.extras := None; Item.notas := None;
            Item.precio_unitario := 19600 |} ] |};
     Orden.direccion := "Calle 1";
     Orden.telefono := "+56912345678";
     Orden.instrucciones_especiales := None;
     Orden.eta_minutos := None;
     Orden.subtotal := 39200;
     Orden.costo_envio := 2000;
     Orden.impuestos := 3000;
     Orden.descuento := Some 0;
     Orden.total := 44200;
     Orden.metodo_pago := None |}.

(** An order without items, with a status and a date to choose. *)
Definition orden_simple (id : Z) (estado : string) (fecha : option string)
  : Orden.t :=
  {| Orden.id := id;
     Orden.estado := estado;
     Orden.fecha := fecha;
     Orden.items_json := None;
     Orden.direccion := "Calle 1";
     Orden.telefono := "+56912345678";
     Orden.instrucciones_especiales := None;
     Orden.eta_minutos := None;
     Orden.subtotal := 0;
     Orden.costo_envio := 0;
     Orden.impuestos := 0;
     Orden.descuento := None;
     Orden.total := 0;
     Orden.metodo_pago := None |}.

(** Four orders as a GET of /pedidos may return them: the first and the
    third carry one same date, the fourth is delivered and undated. *)
Definition pedidos_muestra : list Orden.t :=
  [ orden_simple 1 "pendiente" (Some "2024-05-01T12:00:00Z");
    orden_simple 2 "confirmado" (Some "2024-05-02T09:15:00Z");
    orden_simple 3 "en_camino" (Some "2024-05-01T12:00:00Z");
    orden_simple 4 "entregado" None ].


(** The page before anything is drawn. *)
Definition dom_muestra : Dom :=
  {| ordenes_container_innerHTML := "";
     ordenes_container_display := "";
     ordenes_vacias_display := "none";
     ticket_contenido := "";
     modalTicket_visible := false;
     mensaje_container := Some "";
     ventanas_impresion := [] |}.

(** The panel holding a list of orders, under the 'todos' filter. *)
Definition panel_muestra (ordenes : list Orden.t) : Estado :=
  {| ordenesActuales := ordenes;
     filtroActual := "todos";
     ordenSeleccionada := None;
     dom := dom_muestra;
     peticiones := [] |}.

(** ** The walk through the statuses *)

(** The status that the status button of a card asks for: the
    descriptor's siguienteEstado when mostrarBotonEstado is truthy,
    'entregado' from the explicit button of an order on its way. *)
Definition destino_accion (estado : string) : option string :=
  let estadoInfo := obtenerInfoEstadoCocina estado in
  if hay_bool (mostrarBotonEstado estadoInfo)
  then Some (texto_de (siguienteEstado estadoInfo))
  else if String.eqb estado "en_camino" then Some "entregado" else None.

(** The status after [n] uses of the button, the store accepting each. *)
Fixpoint avanzar (n : nat) (estado : string) : string :=
  match n with
  | O => estado
  | S m =>
      match destino_accion estado with
      | Some d => avanzar m d
      | None => estado
      end
  end.

(** ** The browser around the scripts

    [localStorage], the path of the page, the values assigned to
    [window.location.href] (latest first), the texts handed to [alert]
    (latest first) and the text of the cart badge ([None] on a page
    without that element). *)
Record Navegador := {
  localStorage : gmap string string;
  pathname : string;
  href : list string;
  alertas : list string;
  carrito_badge : option string
}.

Definition con_localStorage (f : gmap string string -> gmap string string)
    (nav : Navegador) : Navegador :=
  {| localStorage := f (localStorage nav);
     pathname := pathname nav;
     href := href nav;
     alertas := alertas nav;
     carrito_badge := carrito_badge nav |}.

(** [window.location.href = url]. *)
Definition ir_a (url : string) (nav : Navegador) : Navegador :=
  {| localStorage := localStorage nav;
     pathname := pathname nav;
     href := url :: href nav;
     alertas := alertas nav;
     carrito_badge := carrito_badge nav |}.

(** [alert(mensaje)]. *)
Definition alert (mensaje : string) (nav : Navegador) : Navegador :=
  {| localStorage := localStorage nav;
     pathname := pathname nav;
     href := href nav;
     alertas := mensaje :: alertas nav;
     carrito_badge := carrito_badge nav |}.

(** [badge.textContent = texto] when the element exists. *)
Definition poner_badge (texto : string) (nav : Navegador) : Navegador :=
  {| localStorage := localStorage nav;
     pathname := pathname nav;
     href := href nav;
     alertas := alertas nav;
     carrito_badge :=
       match carrito_badge nav with
       | Some _ => Some texto
       | None => None
       end |}.

(** [s.includes(buscado)]. *)
Fixpoint includes (buscado s : string) : bool :=
  String.prefix buscado s
  || match s with
     | String _ r => includes buscado r
     | EmptyString => false
     end.

(** ** The body of a response

    What [response.json()] gives, as [request] reads it: the properties
    detail and message, and the value the caller goes on with. *)

(** An entry of a validation error's [loc]: a name or an index. *)
Inductive Lugar :=
| LTexto (s : string)
| LIndice (z : Z).

Record ErrorValidacion := {
  loc : list Lugar;
  msg : option string
}.

(** [detail] when it is truthy: a text, a list of validation errors, an
    object (given by the text JSON.stringify makes of it), or a value of
    another type (a number other than 0, true). *)
Inductive Detalle :=
| DetalleTexto (s : string)
| DetalleLista (errores : list ErrorValidacion)
| DetalleObjeto (json : string)
| DetalleOtro.

(** The body, an object or an array: [detail] is [None] for a property
    that is absent or falsy without being a text (null, 0, false), and
    [message] is a text when it is there. *)
Record Datos (A : Type) := {
  detail : option Detalle;
  message : option string;
  carga : A
}.
Arguments detail {A} _.
Arguments message {A} _.
Arguments carga {A} _.

(** How [fetch] and then [response.json()] end: fetch rejects (the
    network), or it resolves with a status and json() resolves with the
    body or rejects (the body is not JSON). *)
Inductive Fetch (A : Type) :=
| FetchRechaza (mensaje : string)
| FetchResponde (status : Z) (json : Respuesta (Datos A)).
Arguments FetchRechaza {A} mensaje.
Arguments FetchResponde {A} status json.

(** What [fetch] is called with. *)
Record Config (B : Type) := {
  url : string;
  method : string;
  headers : gmap string string;
  body : option B
}.
Arguments url {B} _.
Arguments method {B} _.
Arguments headers {B} _.
Arguments body {B} _.

(** ** cocina.js: ApiClient *)

Module ApiClient.

Definition API_BASE_URL : string := "http://localhost:8000/api/v1".

(** [localStorage.getItem('access_token')] *)
Definition getToken (nav : Navegador) : option string :=
  localStorage nav !! "access_token".

(** [localStorage.setItem('access_token', token)]: the storage keeps the
    text of the value. *)
Definition setToken (token : option string) (nav : Navegador) : Navegador :=
  con_localStorage (insert "access_token" (texto_de token)) nav.

(** [!!this.getToken()] *)
Definition isAuthenticated (nav : Navegador) : bool :=
  hay_texto (getToken nav).

Definition logout (nav : Navegador) : Navegador :=
  let nav := con_localStorage (delete "access_token") nav in
  let path := pathname nav in
  if includes "/tu-cuenta/" path || includes "/carrito/" path
     || includes "/admin/" path || includes "/pedidos/" path
  then if includes "/tu-cuenta/" path
       then ir_a "login.html" nav
       else ir_a "../tu-cuenta/login.html" nav
  else ir_a "tu-cuenta/login.html" nav.

(** The headers and the configuration [request] builds. *)
Definition config {B : Type} (nav : Navegador) (endpoint metodo : string)
    (cuerpo : option B) (cabeceras : gmap string string) : Config B :=
  let defaultHeaders : gmap string string :=
    {[ "Content-Type" := "application/json";
       "Accept" := "application/json" ]} in
  let defaultHeaders :=
    if hay_texto (getToken nav)
    then <["Authorization" := "Bearer " +:+ texto_de (getToken nav)]>
           defaultHeaders
    else defaultHeaders in
  {| url := API_BASE_URL +:+ endpoint;
     method := metodo;
     headers := cabeceras ∪ defaultHeaders;
     body := cuerpo |}.

(** [err.loc.length > 1 ? err.loc[err.loc.length - 1] : err.loc[0]],
    as the template literal prints it. *)
Definition field (P : Plataforma) (err : ErrorValidacion) : string :=
  let elegido :=
    if (1 <? length (loc err))%nat
    then loc err !! (length (loc err) - 1)%nat
    else loc err !! 0%nat in
  match elegido with
  | Some (LTexto s) => s
  | Some (LIndice z) => Number_toString P z
  | None => "undefined"
  end.

(** The message of the Error thrown for a response that is not ok. *)
Definition errorMessage {A : Type} (P : Plataforma) (data : Datos A)
  : string :=
  match detail data with
  | Some (DetalleTexto s) =>
      if String.eqb s ""
      then if hay_texto (message data) then texto_de (message data)
           else "Error en la peticion"
      else s
  | Some (DetalleLista errores) =>
      String.concat ", "
        (map (fun err => field P err +:+ ": " +:+ texto_de (msg err)) errores)
  | Some (DetalleObjeto json) => json
  | Some DetalleOtro => "Error en la peticion"
  | None =>
      if hay_texto (message data) then texto_de (message data)
      else "Error en la peticion"
  end.

(** [response.ok] *)
Definition ok (status : Z) : bool := (200 <=? status) && (status <=? 299).

(** [async request(endpoint, method, body, headers)], from the response:
    the browser afterwards and how the promise ends; [Resuelve None] is
    the [null] returned after a 401. *)
Definition request {A : Type} (P : Plataforma) (nav : Navegador)
    (endpoint : string) (respuesta : Fetch A)
  : Navegador * Respuesta (option A) :=
  match respuesta with
  | FetchRechaza mensaje => (nav, Rechaza mensaje)
  | FetchResponde status json =>
      if (status =? 401) && negb (includes "/auth/login" endpoint)
      then (logout nav, Resuelve None)
      else
        match json with
        | Rechaza mensaje => (nav, Rechaza mensaje)
        | Resuelve data =>
            if negb (ok status)
            then (nav, Rechaza (errorMessage P data))
            else (nav, Resuelve (Some (carga data)))
        end
  end.

End ApiClient.

(** How [api.get('/pedidos')] ends for cargarOrdenes: [null] is not an
    array. *)
Definition pedidos_de (r : Respuesta (option (option (list Orden.t))))
  : Respuesta (option (list Orden.t)) :=
  match r with
  | Resuelve (Some v) => Resuelve v
  | Resuelve None => Resuelve None
  | Rechaza m => Rechaza m
  end.

(** ** cocina.js: actualizarOrdenes

    [await cargarOrdenes(); mostrarExito('Órdenes actualizadas');] *)
Definition actualizarOrdenes (P : Plataforma)
    (respuesta : Respuesta (option (list Orden.t))) (st : Estado) : Estado :=
  mostrarExito "Órdenes actualizadas" (cargarOrdenes P respuesta st).

(** ** cocina.js: the DOMContentLoaded handler *)

(** The user that GET /auth/me returns. *)
Record Usuario := { rol : option string }.

(** The panel in its browser. *)
Record Pagina := {
  panel : Estado;
  navegador : Navegador
}.

(** [await cargarOrdenes()] with the request behind it: [pedidos] is the
    response to GET /pedidos. *)
Definition cargar_en_pagina (P : Plataforma)
    (pedidos : Fetch (option (list Orden.t))) (pg : Pagina) : Pagina :=
  match ApiClient.request P (navegador pg) "/pedidos" pedidos with
  | (nav, r) =>
      {| panel := cargarOrdenes P (pedidos_de r) (panel pg);
         navegador := nav |}
  end.

(** [cambiarEstadoOrden(ordenId, nuevoEstado)] with the requests behind
    it: [patch] is the response to the PATCH and [pedidos] the response
    to the GET of the reload, if it is asked for. *)
Definition cambiar_en_pagina (P : Plataforma) (ordenId : Z)
    (nuevoEstado : string) (patch : Fetch unit)
    (pedidos : Fetch (option (list Orden.t))) (pg : Pagina) : Pagina :=
  match ApiClient.request P (navegador pg)
          ("/pedidos/" +:+ Number_toString P ordenId +:+ "/estado") patch with
  | (nav, Rechaza message) =>
      {| panel :=
           cambiarEstadoOrden P ordenId nuevoEstado (Rechaza message)
             (Rechaza message) (panel pg);
         navegador := nav |}
  | (nav, Resuelve _) =>
      match ApiClient.request P nav "/pedidos" pedidos with
      | (nav', r) =>
          {| panel :=
               cambiarEstadoOrden P ordenId nuevoEstado (Resuelve tt)
                 (pedidos_de r) (panel pg);
             navegador := nav' |}
      end
  end.

(** The handler up to the first drawing of the list: [me] and [pedidos]
    are the responses to GET /auth/me and GET /pedidos, if they are
    asked for.  The call of ocultarMenusNoCocinero restyles the
    navigation bar only, which the embedding does not hold; the
    listeners of the filter come after. *)
Definition al_cargar (P : Plataforma) (me : Fetch Usuario)
    (pedidos : Fetch (option (list Orden.t))) (pg : Pagina) : Pagina :=
  if negb (ApiClient.isAuthenticated (navegador pg))
  then {| panel := panel pg;
          navegador := ir_a "../tu-cuenta/login.html" (navegador pg) |}
  else
    let st := con_peticion (GET "/auth/me") (panel pg) in
    match ApiClient.request P (navegador pg) "/auth/me" me with
    | (nav, Rechaza _) =>
        {| panel := st;
           navegador := ir_a "../tu-cuenta/login.html" nav |}
    | (nav, Resuelve user) =>
        let permitido :=
          match user with
          | Some u =>
              match rol u with
              | Some r =>
                  bool_decide (r ∈ ["admin"; "administrador"; "cocinero"])
              | None => false
              end
          | None => false
          end in
        if negb permitido
        then {| panel := st;
                navegador :=
                  ir_a "../index.html"
                    (alert "No tienes permisos para acceder al panel de cocina"
                       nav) |}
        else cargar_en_pagina P pedidos {| panel := st; navegador := nav |}
    end.

(** A session on the kitchen page, with a token and a cart. *)
Definition sesion_muestra : Navegador :=
  {| localStorage :=
       {[ "access_token" := "eyJhbGciOi";
          "carritoLaFornace" := "[]" ]};
     pathname := "/admin/cocina.html";
     href := [];
     alertas := [];
     carrito_badge := Some "0" |}.

Definition pagina_muestra (ordenes : list Orden.t) : Pagina :=
  {| panel := panel_muestra ordenes;
     navegador := sesion_muestra |}.

(** ** scripts.js: the cart in localStorage *)

(** What the scripts need of the cart: its items with their quantity, a
    number, and JSON over lists of them.  [JSON_parse] gives [None] for
    a text that makes JSON.parse throw and [Some None] for a value that
    is not an array.  The quantities are integers whose sums stay
    within the integers a number holds exactly. *)
Record Carro := {
  Articulo : Type;
  cantidad : Articulo -> Z;
  JSON_parse : string -> option (option (list Articulo));
  JSON_stringify : list Articulo -> string
}.

(** cargarCarrito: the cart it returns and the browser afterwards. *)
Definition cargarCarrito (J : Carro) (nav : Navegador)
  : list (Articulo J) * Navegador :=
  match localStorage nav !! "carritoLaFornace" with
  | None => ([], nav)
  | Some carritoJSON =>
      if String.eqb carritoJSON "" || String.eqb carritoJSON "undefined"
         || String.eqb carritoJSON "null"
      then ([], nav)
      else
        match JSON_parse J carritoJSON with
        | Some (Some carrito) => (carrito, nav)
        | Some None => ([], nav)
        | None => ([], con_localStorage (delete "carritoLaFornace") nav)
        end
  end.

(** [carritoActual.reduce((total, item) => total + item.cantidad, 0)] *)
Definition cantidad_total (J : Carro) (carritoActual : list (Articulo J)) : Z :=
  fold_left (fun total item => total + cantidad J item) carritoActual 0.

Definition actualizarBadgeCarrito (P : Plataforma) (J : Carro)
    (nav : Navegador) : Navegador :=
  match carrito_badge nav with
  | Some _ =>
      match cargarCarrito J nav with
      | (carritoActual, nav) =>
          poner_badge (Number_toString P (cantidad_total J carritoActual)) nav
      end
  | None => nav
  end.

(** guardarCarrito: [carritoData] is [None] for an argument that is not
    an array. *)
Definition guardarCarrito (P : Plataforma) (J : Carro)
    (carritoData : option (list (Articulo J))) (nav : Navegador) : Navegador :=
  let carrito := default [] carritoData in
  actualizarBadgeCarrito P J
    (con_localStorage (insert "carritoLaFornace" (JSON_stringify J carrito))
       nav).

Definition vaciarCarrito (P : Plataforma) (J : Carro) (nav : Navegador)
  : Navegador :=
  actualizarBadgeCarrito P J
    (con_localStorage (delete "carritoLaFornace") nav).

(** limpiarDatosAplicacion, up to the reload of the page with which it
    ends. *)
Definition limpiarDatosAplicacion (nav : Navegador) : Navegador :=
  con_localStorage
    (fun almacen =>
       delete "extrasLaFornace"
         (delete "usuarioLaFornace"
            (delete "access_token"
               (delete "carritoLaFornace" almacen))))
    nav.

(** A cart of bare quantities, written as a JSON array of numbers; the
    parser knows the empty array, one cart and one object. *)
Definition carro_muestra : Carro :=
  {| Articulo := Z;
     cantidad := fun z => z;
     JSON_parse := fun s =>
       if String.eqb s "[]" then Some (Some [])
       else if String.eqb s "[2,1]" then Some (Some [2; 1])
       else if String.eqb s "{}" then Some None
       else None;
     JSON_stringify := fun l =>
       "[" +:+ String.concat "," (map (fun z => signo z +:+ cifras z) l)
       +:+ "]" |}.

(** ** scripts.js: validarEmail, validarTelefono *)

(** The regular expressions of the validators read a text by its UTF-16
    code units; a text is given to them as the list of these.  The
    expressions use no look-around and no back-reference, so [test]
    with the anchors ^ and $ asks whether the whole text belongs to the
    language of the expression. *)
Inductive Regex :=
| Nada
| Vacia
| Clase (p : N -> bool)
| Sec (r1 r2 : Regex)
| Alt (r1 r2 : Regex)
| Estrella (r : Regex).

(** [r+], [r?], [r{n}] and a literal. *)
Definition Mas (r : Regex) : Regex := Sec r (Estrella r).
Definition Opcional (r : Regex) : Regex := Alt r Vacia.
Fixpoint Veces (n : nat) (r : Regex) : Regex :=
  match n with
  | O => Vacia
  | S m => Sec r (Veces m r)
  end.
Definition Unidad (c : N) : Regex := Clase (N.eqb c).

(** Matching by derivatives. *)
Fixpoint anulable (r : Regex) : bool :=
  match r with
  | Nada => false
  | Vacia => true
  | Clase _ => false
  | Sec a b => anulable a && anulable b
  | Alt a b => anulable a || anulable b
  | Estrella _ => true
  end.

Fixpoint derivar (c : N) (r : Regex) : Regex :=
  match r with
  | Nada => Nada
  | Vacia => Nada
  | Clase p => if p c then Vacia else Nada
  | Sec a b =>
      if anulable a
      then Alt (Sec (derivar c a) b) (derivar c b)
      else Sec (derivar c a) b
  | Alt a b => Alt (derivar c a) (derivar c b)
  | Estrella a => Sec (derivar c a) (Estrella a)
  end.

(** [/^r$/.test(s)] *)
Definition RegExp_test (r : Regex) (s : list N) : bool :=
  anulable (fold_left (fun r c => derivar c r) s r).

(** The language of an expression. *)
Inductive Coincide : Regex -> list N -> Prop :=
| CVacia : Coincide Vacia []
| CClase (p : N -> bool) (c : N) : p c = true -> Coincide (Clase p) [c]
| CSec (r1 r2 : Regex) (s1 s2 : list N) :
    Coincide r1 s1 -> Coincide r2 s2 -> Coincide (Sec r1 r2) (s1 ++ s2)
| CAltI (r1 r2 : Regex) (s : list N) :
    Coincide r1 s -> Coincide (Alt r1 r2) s
| CAltD (r1 r2 : Regex) (s : list N) :
    Coincide r2 s -> Coincide (Alt r1 r2) s
| CEstrellaFin (r : Regex) : Coincide (Estrella r) []
| CEstrellaMas (r : Regex) (s1 s2 : list N) :
    Coincide r s1 -> Coincide (Estrella r) s2 ->
    Coincide (Estrella r) (s1 ++ s2).

(** [\s]: the white space and the line terminators of ECMAScript. *)
Definition espacio (c : N) : bool :=
  ((9 <=? c) && (c <=? 13) || (c =? 32) || (c =? 160) || (c =? 5760)
   || (8192 <=? c) && (c <=? 8202) || (c =? 8232) || (c =? 8233)
   || (c =? 8239) || (c =? 8287) || (c =? 12288) || (c =? 65279))%N.

(** [\d] *)
Definition digito (c : N) : bool := ((48 <=? c) && (c <=? 57))%N.

(** [[^\s@]] *)
Definition ni_espacio_ni_arroba (c : N) : bool :=
  negb (espacio c || (c =? 64)%N).

(** [/^[^\s@]+@[^\s@]+\.[^\s@]+$/] *)
Definition regex_email : Regex :=
  Sec (Mas (Clase ni_espacio_ni_arroba))
    (Sec (Unidad 64)
       (Sec (Mas (Clase ni_espacio_ni_arroba))
          (Sec (Unidad 46) (Mas (Clase ni_espacio_ni_arroba))))).

Definition validarEmail (email : list N) : bool :=
  RegExp_test regex_email email.

(** [/^(\+?56)?(\s)?9\d{8}$/] *)
Definition regex_telefono : Regex :=
  Sec (Opcional (Sec (Opcional (Unidad 43)) (Sec (Unidad 53) (Unidad 54))))
    (Sec (Opcional (Clase espacio))
       (Sec (Unidad 57) (Veces 8 (Clase digito)))).

(** [telefono.replace(/\s/g, '')] and the test. *)
Definition validarTelefono (telefono : list N) : bool :=
  let telefonoLimpio := List.filter (fun c => negb (espacio c)) telefono in
  RegExp_test regex_telefono telefonoLimpio.

(** ** Tarea 2/scripts.js: the menu and the cart in memory *)

Module Tarea2.

Record Pizza := {
  pizza_id : Z;
  pizza_nombre : string;
  descripcion : string;
  pizza_imagen : string;
  precio_mediana : Z;
  precio_grande : Z;
  ingredientes : list string
}.

Definition pizzas : list Pizza :=
  [ {| pizza_id := 1;
       pizza_nombre := "Hawaiana";
       descripcion := "Piña, jamón y mozzarella";
       pizza_imagen := "image/hawaiana1_1691158490_medium.jpg";
       precio_mediana := 19600;
       precio_grande := 22700;
       ingredientes := [ "Mozzarella"; "Jamón"; "Piña" ] |};
    {| pizza_id := 2;
       pizza_nombre := "Pepperoni";
       descripcion := "Mozzarella y pepperoni";
       pizza_imagen := "image/superpepperoni__1691158022_medium.jpg";
       precio_mediana := 19600;
       precio_grande := 22700;
       ingredientes := [ "Mozzarella"; "Pepperoni" ] |};
    {| pizza_id := 3;
       pizza_nombre := "Vegetariana";
       descripcion := "Champiñones, pimentón, aceitunas";
       pizza_imagen := "image/vegetariana1_1691158337_medium.jpg";
       precio_mediana := 22000;
       precio_grande := 25900;
       ingredientes :=
         [ "Doble mozzarella"; "Aceitunas"; "Champiñones"; "Pimentón";
           "Cebolla" ] |} ].

(** [pizzas.find(p => p.id === id)] *)
Definition obtenerPizza (id : Z) : option Pizza :=
  List.find (fun p => pizza_id p =? id) pizzas.

(** [pizza.precios[tamaño]]: the price of the two sizes; for any other
    name there is no number ([undefined], or a member inherited from
    Object.prototype). *)
Definition precios (pizza : Pizza) (tamanio : string) : option Z :=
  if String.eqb tamanio "mediana" then Some (precio_mediana pizza)
  else if String.eqb tamanio "grande" then Some (precio_grande pizza)
  else None.

Record Item := {
  id : Z;
  pizzaId : Z;
  nombre : string;
  tamanio : string;
  precio : option Z;
  cantidad : Z;
  imagen : string
}.

(** The global [carrito] and localStorage. *)
Record Tienda := {
  carrito : list Item;
  almacen : gmap string string
}.

Section Funciones.

(** [JSON.stringify] on a cart. *)
Variable JSON_stringify : list Item -> string.

Definition guardarCarrito (t : Tienda) : Tienda :=
  {| carrito := carrito t;
     almacen :=
       <["carritoLaFornace" := JSON_stringify (carrito t)]> (almacen t) |}.

(** agregarAlCarrito: [ahora] is the value of Date.now(); what it
    returns and the shop afterwards. *)
Definition agregarAlCarrito (ahora pizzaId : Z) (tamanio : string)
    (cantidad : Z) (t : Tienda) : bool * Tienda :=
  match obtenerPizza pizzaId with
  | None => (false, t)
  | Some pizza =>
      let item :=
        {| id := ahora;
           pizzaId := pizzaId;
           nombre := pizza_nombre pizza;
           tamanio := tamanio;
           precio := precios pizza tamanio;
           cantidad := cantidad;
           imagen := pizza_imagen pizza |} in
      (true,
       guardarCarrito
         {| carrito := carrito t ++ [item]; almacen := almacen t |})
  end.

End Funciones.

(** [carrito.reduce((total, item) => total + item.precio * item.cantidad, 0)];
    [None] is NaN, which a price that is no number gives and every
    later sum keeps.  The sums are taken to stay within the integers a
    number holds exactly. *)
Definition calcularTotalCarrito (t : Tienda) : option Z :=
  fold_left
    (fun total item =>
       match total, precio item with
       | Some total, Some precio => Some (total + precio * cantidad item)
       | _, _ => None
       end)
    (carrito t) (Some 0).

Definition vaciarCarrito (t : Tienda) : Tienda :=
  {| carrito := []; almacen := delete "carritoLaFornace" (almacen t) |}.

End Tarea2.

(** * Properties *)

(** ** Strings *)

Lemma append_assoc (a b c : string) : (a +:+ b) +:+ c = a +:+ (b +:+ c).
Proof.
  induction a as [|x a IH]; [reflexivity |].
  change (String x ((a +:+ b) +:+ c) = String x (a +:+ (b +:+ c))).
  now f_equal.
Qed.

Lemma append_vacio_r (a : string) : a +:+ "" = a.
Proof.
  induction a as [|x a IH]; [reflexivity |].
  change (String x (a +:+ "") = String x a). now f_equal.
Qed.

Lemma infijo_aqui (x post : string) : Infijo x (x +:+ post).
Proof. exists "", post. reflexivity. Qed.

Lemma infijo_aqui3 (a b c post : string) :
  Infijo (a +:+ b +:+ c) (a +:+ b +:+ c +:+ post).
Proof. exists "", post. rewrite !append_assoc. reflexivity. Qed.

Lemma infijo_saltar (x a s : string) : Infijo x s -> Infijo x (a +:+ s).
Proof.
  intros (pre & post & ->). exists (a +:+ pre), post.
  now rewrite append_assoc.
Qed.

Lemma infijo_izquierda (x s t : string) : Infijo x s -> Infijo x (s +:+ t).
Proof.
  intros (pre & post & ->). exists pre, (post +:+ t).
  now rewrite !append_assoc.
Qed.

Lemma list_ascii_append (a b : string) :
  list_ascii_of_string (a +:+ b)
  = list_ascii_of_string a ++ list_ascii_of_string b.
Proof.
  induction a as [|x a IH]; [reflexivity |].
  change (x :: list_ascii_of_string (a +:+ b)
          = x :: (list_ascii_of_string a ++ list_ascii_of_string b)).
  now f_equal.
Qed.



Lemma concat_cons (sep x : string) (l : list string) :
  l <> [] -> String.concat sep (x :: l) = x +:+ sep +:+ String.concat sep l.
Proof. destruct l; [congruence | reflexivity]. Qed.

Lemma concat_snoc (sep : string) (l : list string) (z : string) :
  l <> [] ->
  String.concat sep (l ++ [z]) = String.concat sep l +:+ sep +:+ z.
Proof.
  induction l as [|x [|y r] IH]; intros Hl; [congruence | reflexivity |].
  change (x +:+ sep +:+ String.concat sep ((y :: r) ++ [z])
          = (x +:+ sep +:+ String.concat sep (y :: r)) +:+ sep +:+ z).
  rewrite IH by discriminate. now rewrite !append_assoc.
Qed.

Lemma sufijo_ultimo (x s : string) (c : ascii) :
  Sufijo x s ->
  last (list_ascii_of_string x) = Some c ->
  last (list_ascii_of_string s) = Some c.
Proof.
  intros (pre & ->) Hc. now rewrite list_ascii_append, last_app, Hc.
Qed.

(** ** Grouping keeps the digits *)







(** ** The sort *)

Section SortProps.
Context {A : Type} (comparefn : A -> A -> option Z).

Lemma insertar_perm (x : A) (l : list A) :
  insertar comparefn x l ≡ₚ x :: l.
Proof.
  induction l as [|y r IH]; simpl; [reflexivity |].
  destruct (default 0 (comparefn x y) <=? 0); [reflexivity |].
  rewrite IH. apply Permutation_swap.
Qed.

Lemma Array_sort_perm (l : list A) : Array_sort comparefn l ≡ₚ l.
Proof.
  induction l as [|x r IH]; simpl; [reflexivity |].
  now rewrite insertar_perm, IH.
Qed.

(** A comparator that orders by a key [k], largest key first, on the
    elements that satisfy [ok]. *)
Context (k : A -> Z) (ok : A -> Prop).
Hypothesis comparefn_clave :
  forall x y, ok x -> ok y -> comparefn x y = Some (k y - k x).

Let R (a b : A) : Prop := k b <= k a.

Lemma insertar_ordenada (x : A) (l : list A) :
  ok x -> Forall ok l -> StronglySorted R l ->
  StronglySorted R (insertar comparefn x l).
Proof.
  intros Hx Hl Hs. induction l as [|y r IH]; simpl.
  - repeat constructor.
  - apply Forall_cons in Hl as [Hy Hr].
    apply StronglySorted_cons in Hs as [Hyr Hs].
    rewrite (comparefn_clave x y Hx Hy). simpl.
    destruct (Z.leb_spec (k y - k x) 0) as [Hle | Hgt].
    + apply StronglySorted_cons. split.
      * constructor; [unfold R; lia |].
        eapply Forall_impl; [exact Hyr |]. unfold R. intros; lia.
      * apply StronglySorted_cons. now split.
    + apply StronglySorted_cons. split; [| now apply IH].
      rewrite insertar_perm. constructor; [unfold R; lia | exact Hyr].
Qed.

Lemma Array_sort_ordenada (l : list A) :
  Forall ok l -> StronglySorted R (Array_sort comparefn l).
Proof.
  induction l as [|x r IH]; intros Hl; simpl; [constructor |].
  apply Forall_cons in Hl as [Hx Hr].
  apply insertar_ordenada; [exact Hx | | now apply IH].
  now rewrite Array_sort_perm.
Qed.

(** Stability: the elements that a predicate picks at one key keep
    the order they came in. *)
Context (Q : A -> Prop) `{!forall x, Decision (Q x)} (t : Z).
Hypothesis Q_clave : forall x, Q x -> k x = t.


End SortProps.

(** ** The table of statuses *)

Lemma estados_propio (s : string) (info : InfoEstado) :
  estados !! s = Some info -> (s, info) ∈ tabla_estados.
Proof. apply elem_of_list_to_map_2. Qed.

Lemma mostrarBoton_casos (s : string) :
  hay_bool (mostrarBotonEstado (obtenerInfoEstadoCocina s)) = true
  <-> s ∈ ["pendiente"; "confirmado"; "en_preparacion"].
Proof.
  split.
  - unfold obtenerInfoEstadoCocina.
    destruct (estados !! s) as [info|] eqn:E.
    + apply estados_propio in E. unfold tabla_estados in E.
      rewrite !elem_of_cons, elem_of_nil in E.
      rewrite !elem_of_cons.
      destruct E as [E|[E|[E|[E|[E|[E|[E|[]]]]]]]];
        injection E as -> ->; simpl; intros; auto; discriminate.
    + destruct (decide (s ∈ Object_prototype)); discriminate.
  - rewrite !elem_of_cons, elem_of_nil.
    intros [->|[->|[->|[]]]]; reflexivity.
Qed.

Section Propiedades.

Variable P : Plataforma.


(** ** The blocks of the ticket *)

Lemma en_cabecera (orden : Orden.t) (l : string) :
  l ∈ lineas_cabecera P orden -> l ∈ lineas_ticket P orden.
Proof. unfold lineas_ticket. rewrite !elem_of_app. tauto. Qed.

Lemma en_items (orden : Orden.t) (item : Item.t) (l : string) :
  item ∈ items_de orden -> l ∈ lineas_item P item ->
  l ∈ lineas_ticket P orden.
Proof.
  intros Hi Hl. unfold lineas_ticket. rewrite !elem_of_app.
  right; left. apply list_elem_of_In, in_concat.
  exists (lineas_item P item). split.
  - apply in_map, list_elem_of_In, Hi.
  - apply list_elem_of_In, Hl.
Qed.


Lemma en_pie (orden : Orden.t) (l : string) :
  l ∈ lineas_pie orden -> l ∈ lineas_ticket P orden.
Proof. unfold lineas_ticket. rewrite !elem_of_app. tauto. Qed.


(** ** Money *)


(** ** Status descriptors *)

(** The fallback of [obtenerInfoEstadoCocina]: a status that is neither a
    key of [estados] nor a property of Object.prototype is labelled with
    its own text, in the neutral style, without a button. *)
Lemma obtenerInfoEstadoCocina_desconocido (s : string) :
  estados !! s = None -> s ∉ Object_prototype ->
  obtenerInfoEstadoCocina s
  = {| texto := Some s; clase := Some "bg-secondary";
       colorBorder := Some "secondary"; mostrarBotonEstado := Some false;
       botonTexto := None; botonClase := None; siguienteEstado := None |}.
Proof.
  intros Hs Hp. unfold obtenerInfoEstadoCocina. rewrite Hs.
  now destruct (decide (s ∈ Object_prototype)).
Qed.

(** C5 at the status "constructor": the lookup [estados[estado]] finds
    the function inherited from Object.prototype, which is truthy, so the
    fallback is not taken; the label read from it is undefined, not the
    status text, and the ticket prints "Estado: undefined". *)
Theorem obtenerInfoEstadoCocina_constructor :
  estados !! "constructor" = None
  /\ texto (obtenerInfoEstadoCocina "constructor") = None
  /\ texto (obtenerInfoEstadoCocina "constructor") <> Some "constructor"
  /\ "Estado: undefined"
       ∈ lineas_ticket P (orden_simple 1 "constructor" None)
  /\ texto (obtenerInfoEstadoCocina "unknown_value") = Some "unknown_value"
  /\ mostrarBotonEstado (obtenerInfoEstadoCocina "unknown_value") = Some false.
Proof.
  split; [reflexivity |]. split; [reflexivity |]. split; [discriminate |].
  split; [| split; reflexivity].
  apply en_pie. unfold lineas_pie. rewrite !elem_of_cons. left. reflexivity.
Qed.

(** ** Actions of a card *)

Lemma boton_siguiente_visible (o : Orden.t) :
  boton_siguiente P o <> ""
  <-> Orden.estado o ∈ ["pendiente"; "confirmado"; "en_preparacion"].
Proof.
  rewrite <- mostrarBoton_casos. unfold boton_siguiente.
  destruct (hay_bool _); split; first [discriminate | congruence].
Qed.

Lemma boton_entregado_visible (o : Orden.t) :
  boton_entregado P o <> "" <-> Orden.estado o = "en_camino".
Proof.
  unfold boton_entregado.
  destruct (String.eqb_spec (Orden.estado o) "en_camino") as [E | E];
    split; first [discriminate | congruence].
Qed.

(** C1, as the code has it: the card of an order that is 'en_camino'
    shows one action, the explicit button 'Marcar Entregado' that asks
    for 'entregado', and no button of the descriptor (its
    mostrarBotonEstado is false); the card of an 'entregado' order shows
    no action; no card shows both buttons; the descriptor's button shows
    for 'pendiente', 'confirmado' and 'en_preparacion' only, the explicit
    one for 'en_camino' only. *)
Theorem acciones_de_la_tarjeta :
  (forall o : Orden.t,
     Orden.estado o = "en_camino" ->
     boton_siguiente P o = ""
     /\ boton_entregado P o
        = html "<button class=`btn btn-success btn-sm w-100 mt-2` onclick=`cambiarEstadoOrden("
            +:+ Number_toString P (Orden.id o) +:+ html ", 'entregado')`>"
            +:+ "Marcar Entregado" +:+ "</button>"
     /\ tarjeta P o
        = tarjeta_cuerpo P o +:+ boton_entregado P o
            +:+ "</div></div></div></div>")
  /\ (forall o : Orden.t,
        Orden.estado o = "entregado" ->
        boton_siguiente P o = "" /\ boton_entregado P o = ""
        /\ tarjeta P o = tarjeta_cuerpo P o +:+ "</div></div></div></div>")
  /\ (forall o : Orden.t,
        boton_siguiente P o = "" \/ boton_entregado P o = "")
  /\ (forall o : Orden.t,
        (boton_siguiente P o <> ""
         <-> Orden.estado o ∈ ["pendiente"; "confirmado"; "en_preparacion"])
        /\ (boton_entregado P o <> "" <-> Orden.estado o = "en_camino")).
Proof.
  split; [| split; [| split]].
  - intros o E. unfold tarjeta, boton_siguiente, boton_entregado.
    rewrite E. repeat split; reflexivity.
  - intros o E. unfold tarjeta, boton_siguiente, boton_entregado.
    rewrite E. repeat split; reflexivity.
  - intros o.
    destruct (String.eqb_spec (Orden.estado o) "en_camino") as [E | E].
    + left. unfold boton_siguiente. now rewrite E.
    + right. unfold boton_entregado.
      now destruct (String.eqb_spec (Orden.estado o) "en_camino").
  - intros o. split;
      [apply boton_siguiente_visible | apply boton_entregado_visible].
Qed.

(** ** The filtered view *)

Lemma elem_of_filtrar (filtro : string) (ordenes : list Orden.t)
    (o : Orden.t) :
  o ∈ filtrar filtro ordenes
  <-> o ∈ ordenes
      /\ if decide (filtro = "todos")
         then Orden.estado o ∈ estados_cocina
         else Orden.estado o = filtro.
Proof.
  unfold filtrar. destruct (decide (filtro = "todos"));
    rewrite list_elem_of_filter; tauto.
Qed.

(** C2: the view holds the orders of the list that pass the filter, each
    as often as the list has it: under 'todos' those whose estado is
    pendiente, confirmado, en_preparacion or en_camino, hence none that
    is entregado, anulado or cancelado; under any other value those
    whose estado is that text. *)
Theorem vista_filtrada (filtro : string) (ordenes : list Orden.t) :
  ordenes_visibles P filtro ordenes ≡ₚ filtrar filtro ordenes
  /\ (forall o : Orden.t,
        o ∈ ordenes_visibles P filtro ordenes
        <-> o ∈ ordenes
            /\ if decide (filtro = "todos")
               then Orden.estado o
                      ∈ ["pendiente"; "confirmado"; "en_preparacion";
                         "en_camino"]
               else Orden.estado o = filtro)
  /\ Forall
       (fun o => Orden.estado o ∉ ["entregado"; "anulado"; "cancelado"])
       (ordenes_visibles P "todos" ordenes).
Proof.
  split; [apply Array_sort_perm |]. split.
  - intros o. unfold ordenes_visibles.
    rewrite Array_sort_perm. apply elem_of_filtrar.
  - apply Forall_forall. intros o Ho.
    unfold ordenes_visibles in Ho. rewrite Array_sort_perm in Ho.
    apply elem_of_filtrar in Ho as [_ Ho]. simpl in Ho.
    unfold estados_cocina in Ho.
    rewrite !elem_of_cons, elem_of_nil in Ho.
    rewrite !elem_of_cons, elem_of_nil.
    destruct Ho as [->|[->|[->|[->|[]]]]];
      intros [E|[E|[E|[]]]]; discriminate.
Qed.

(** ** The order of the view *)

Lemma por_fecha_clave (a b : Orden.t) :
  is_Some (tiempo P a) -> is_Some (tiempo P b) ->
  por_fecha P a b = Some (tiempo_ms P b - tiempo_ms P a).
Proof.
  unfold por_fecha, tiempo_ms. now intros [ta ->] [tb ->].
Qed.


(** ** The ticket *)

(** C10: the ticket opens with the four lines of the banner and its last
    line is the closing rule, whatever the order holds. *)
Theorem ticket_cabecera_y_pie (o : Orden.t) :
  exists medio : list string,
    lineas_ticket P o
    = [ "========================================";
        "        PIZZERÍA LA FORNACE";
        "        TICKET DE COCINA";
        "========================================" ]
      ++ medio ++ [ "========================================" ]
    /\ generarTicket P o
       = "========================================" +:+ salto
         +:+ "        PIZZERÍA LA FORNACE" +:+ salto
         +:+ "        TICKET DE COCINA" +:+ salto
         +:+ "========================================" +:+ salto
         +:+ String.concat salto medio +:+ salto
         +:+ "========================================"
    /\ last (lineas_ticket P o)
       = Some "========================================".
Proof.
  set (m :=
    [ "Orden #: " +:+ Number_toString P (Orden.id o);
      "Fecha: " +:+ FechaHora.fecha (formatearFechaHora P (Orden.fecha o));
      "Hora: " +:+ FechaHora.hora (formatearFechaHora P (Orden.fecha o));
      ""; separador; "ITEMS DEL PEDIDO:"; separador; "" ]
    ++ concat (map (lineas_item P) (items_de o))
    ++ lineas_direccion o ++ lineas_instrucciones o ++ lineas_eta P o
    ++ lineas_totales P o
    ++ [ "Estado: "
           +:+ texto_de (texto (obtenerInfoEstadoCocina (Orden.estado o)));
         "Método de pago: "
           +:+ (if hay_texto (Orden.metodo_pago o)
                then texto_de (Orden.metodo_pago o)
                else "No especificado");
         "" ]).
  assert (lineas_ticket P o
          = [ doble; "        PIZZERÍA LA FORNACE";
              "        TICKET DE COCINA"; doble; "" ] ++ m ++ [ doble ])
    as Hl.
  { subst m. unfold lineas_ticket, lineas_cabecera, lineas_pie.
    rewrite <- !app_assoc. reflexivity. }
  clearbody m. exists ("" :: m).
  split; [exact Hl |]. split.
  - unfold generarTicket. rewrite Hl.
    change ([ doble; "        PIZZERÍA LA FORNACE";
              "        TICKET DE COCINA"; doble; "" ] ++ m ++ [ doble ])
      with (doble :: "        PIZZERÍA LA FORNACE"
              :: "        TICKET DE COCINA" :: doble
              :: ("" :: m) ++ [ doble ]).
    rewrite !concat_cons by discriminate.
    now rewrite concat_snoc by discriminate.
  - rewrite Hl.
    change ([ doble; "        PIZZERÍA LA FORNACE";
              "        TICKET DE COCINA"; doble; "" ] ++ m ++ [ doble ])
      with ((doble :: "        PIZZERÍA LA FORNACE"
               :: "        TICKET DE COCINA" :: doble :: "" :: m)
            ++ [ doble ]).
    apply last_snoc.
Qed.

(** The totals carry the discount line exactly when the discount is
    positive. *)
Lemma descuento_en_totales (o : Orden.t) :
  "DESCUENTO: -"
    +:+ formatearPrecio P (MNum (default 0 (Orden.descuento o)))
    ∈ lineas_totales P o
  <-> exists d : Z, Orden.descuento o = Some d /\ 0 < d.
Proof.
  unfold lineas_totales, hay_descuento.
  rewrite !elem_of_app, !elem_of_cons, !elem_of_nil.
  destruct (Orden.descuento o) as [d|]; simpl.
  - destruct (Z.ltb_spec 0 d) as [Hd | Hd].
    + rewrite list_elem_of_singleton. split; [eauto | tauto].
    + rewrite elem_of_nil. split.
      * intros [[H|[H|[H|[H|[]]]]] | [[] | [H|[H|[H|[H|[]]]]]]];
          discriminate H.
      * intros (d' & [= <-] & Hd'). lia.
  - rewrite elem_of_nil. split.
    + intros [[H|[H|[H|[H|[]]]]] | [[] | [H|[H|[H|[H|[]]]]]]];
        discriminate H.
    + intros (d' & [=] & _).
Qed.

(** C3, as the code has it: the ticket of order 77 has the lines
    '2x Hawaiana (grande)' and '    Precio: $39.200' (indented by four
    spaces), no line that starts with DESCUENTO, and the line
    'TOTAL: $44.200'; that line is not the end: a rule, a blank line,
    the status, the payment method, a blank line and the closing rule
    follow it.  For every order the totals hold the line
    'DESCUENTO: -' with the formatted discount exactly when the discount
    is positive. *)
Theorem ticket_orden_77 :
  "2x Hawaiana (grande)" ∈ lineas_ticket P orden_77
  /\ "    Precio: $39.200" ∈ lineas_ticket P orden_77
  /\ Forall (fun l => String.prefix "DESCUENTO" l = false)
            (lineas_ticket P orden_77)
  /\ (exists antes : list string,
        lineas_ticket P orden_77
        = antes
          ++ [ "TOTAL: $44.200";
               "----------------------------------------";
               "";
               "Estado: Pendiente";
               "Método de pago: No especificado";
               "";
               "========================================" ])
  /\ forall o : Orden.t,
       "DESCUENTO: -"
         +:+ formatearPrecio P (MNum (default 0 (Orden.descuento o)))
         ∈ lineas_totales P o
       <-> exists d : Z, Orden.descuento o = Some d /\ 0 < d.
Proof.
  pose (item :=
    {| Item.cantidad := 2; Item.nombre := "Hawaiana";
       Item.tamanio := Some {| Tamanio.nombre := Some "grande" |};
       Item.extras := None; Item.notas := None;
       Item.precio_unitario := 19600 |}).
  split; [| split; [| split; [| split]]].
  - apply (en_items _ item).
    + apply list_elem_of_singleton. reflexivity.
    + apply list_elem_of_here.
  - apply (en_items _ item).
    + apply list_elem_of_singleton. reflexivity.
    + apply list_elem_of_further, list_elem_of_here.
  - destruct P as [f1 f2 f3 [] f5 f6 f7]; vm_compute;
      repeat (constructor; [reflexivity |]); constructor.
  - exists (take 27 (lineas_ticket P orden_77)).
    destruct P as [f1 f2 f3 [] f5 f6 f7]; vm_compute; reflexivity.
  - apply descuento_en_totales.
Qed.

(** C6: [generarTicket] is defined on every order, and a missing
    optional property leaves no line: without instrucciones_especiales
    the instructions block is empty, without eta_minutos the ETA block
    is empty, without metodo_pago the payment line reads
    'No especificado', an item whose extras are absent or empty gives
    its line, its note if it has one, its price and a blank line, and
    with no items the rule that opens the address follows the blank line
    under the items heading. *)
Theorem generarTicket_omite_opcionales (o : Orden.t) :
  generarTicket P o
  = String.concat salto
      (lineas_cabecera P o
       ++ concat (map (lineas_item P) (items_de o))
       ++ lineas_direccion o
       ++ lineas_instrucciones o
       ++ lineas_eta P o
       ++ lineas_totales P o
       ++ lineas_pie o)
  /\ (Orden.instrucciones_especiales o = None -> lineas_instrucciones o = [])
  /\ (Orden.eta_minutos o = None -> lineas_eta P o = [])
  /\ (Orden.metodo_pago o = None ->
      lineas_pie o
      = [ "Estado: "
            +:+ texto_de (texto (obtenerInfoEstadoCocina (Orden.estado o)));
          "Método de pago: No especificado";
          "";
          "========================================" ])
  /\ (forall item : Item.t,
        Item.extras item = None \/ Item.extras item = Some [] ->
        lineas_item P item
        = [ linea_item P item ]
          ++ (if hay_texto (Item.notas item)
              then [ "    Notas: " +:+ texto_de (Item.notas item) ] else [])
          ++ [ "    Precio: "
                 +:+ formatearPrecio P
                       (MNum (Item.precio_unitario item * Item.cantidad item));
               "" ])
  /\ (items_de o = [] ->
      exists antes despues : list string,
        lineas_ticket P o
        = antes
          ++ [ "----------------------------------------";
               "ITEMS DEL PEDIDO:";
               "----------------------------------------";
               "";
               "----------------------------------------";
               "DIRECCIÓN DE ENTREGA:" ]
          ++ despues)
  /\ (Orden.instrucciones_especiales o = None ->
      Orden.eta_minutos o = None ->
      Orden.metodo_pago o = None ->
      items_de o = [] ->
      lineas_ticket P o
      = lineas_cabecera P o
        ++ lineas_direccion o
        ++ lineas_totales P o
        ++ [ "Estado: "
               +:+ texto_de (texto (obtenerInfoEstadoCocina (Orden.estado o)));
             "Método de pago: No especificado";
             "";
             "========================================" ]).
Proof.
  split; [reflexivity |].
  split; [intros E; unfold lineas_instrucciones; now rewrite E |].
  split; [intros E; unfold lineas_eta; now rewrite E |].
  split; [intros E; unfold lineas_pie; now rewrite E |].
  split.
  { intros item E. unfold lineas_item, extras_de.
    now destruct E as [-> | ->]. }
  split.
  - intros E. unfold lineas_ticket. rewrite E.
    exists (take 9 (lineas_cabecera P o)),
      ([ separador; Orden.direccion o; "Tel: " +:+ Orden.telefono o; "" ]
       ++ lineas_instrucciones o ++ lineas_eta P o
       ++ lineas_totales P o ++ lineas_pie o).
    reflexivity.
  - intros E1 E2 E3 E4.
    unfold lineas_ticket, lineas_instrucciones, lineas_eta, lineas_pie.
    now rewrite E1, E2, E3, E4.
Qed.

(** ** Preview and print *)

(** C7: the ticket is a function of the order alone.  From any two
    states of the panel in which the identifier finds the same order,
    verTicket shows the same text, [generarTicket] of that order, and
    changes nothing but the selection, the preview and the modal;
    imprimirTicket then writes that same text between the pre tags of
    the print document; the list of orders and the order itself are
    left as they were. *)
Theorem generarTicket_puro (ordenId : Z) (orden : Orden.t)
    (st1 st2 : Estado) :
  List.find (fun o => Orden.id o =? ordenId) (ordenesActuales st1)
    = Some orden ->
  List.find (fun o => Orden.id o =? ordenId) (ordenesActuales st2)
    = Some orden ->
  ticket_contenido (dom (verTicket P ordenId st1)) = generarTicket P orden
  /\ verTicket P ordenId st1
     = con_dom
         (fun d => poner_modal true (poner_ticket (generarTicket P orden) d))
         (con_seleccion (Some orden) st1)
  /\ ticket_contenido (dom (verTicket P ordenId st2))
     = ticket_contenido (dom (verTicket P ordenId st1))
  /\ ventanas_impresion (dom (imprimirTicket P (verTicket P ordenId st1)))
     = documento_impresion P orden :: ventanas_impresion (dom st1)
  /\ Infijo ("<pre>" +:+ generarTicket P orden +:+ "</pre>")
            (documento_impresion P orden)
  /\ ordenesActuales (imprimirTicket P (verTicket P ordenId st1))
     = ordenesActuales st1
  /\ ordenSeleccionada (imprimirTicket P (verTicket P ordenId st1))
     = Some orden.
Proof.
  intros H1 H2. unfold verTicket, imprimirTicket. simpl.
  rewrite H1, H2. simpl. repeat split.
  unfold documento_impresion.
  repeat first [ apply infijo_aqui3 | apply infijo_saltar ].
Qed.

(** ** Changing the status *)

(** C9: when the PATCH resolves, a GET of /pedidos follows it and the
    list becomes what that GET returns (the whole array, or the empty
    list for something that is not an array; the old list stays only if
    the GET itself fails), so the result is that of cargarOrdenes and
    owes nothing to the identifier or the status asked for.  When the
    PATCH fails no GET is issued, the list, the selection and the cards
    stay as they were, and the message area, if the page has one, holds
    the alert with 'Error al actualizar orden: ' and the message of the
    error. *)
Theorem cambiarEstadoOrden_recarga (ordenId : Z) (nuevoEstado : string)
    (get : Respuesta (option (list Orden.t))) (st : Estado)
    (nuevas : list Orden.t) (message : string) :
  peticiones (cambiarEstadoOrden P ordenId nuevoEstado (Resuelve tt) get st)
  = [ GET "/pedidos";
      PATCH ("/pedidos/" +:+ Number_toString P ordenId +:+ "/estado")
            nuevoEstado ]
    ++ peticiones st
  /\ ordenesActuales
       (cambiarEstadoOrden P ordenId nuevoEstado (Resuelve tt)
          (Resuelve (Some nuevas)) st)
     = nuevas
  /\ ordenesActuales
       (cambiarEstadoOrden P ordenId nuevoEstado (Resuelve tt)
          (Resuelve None) st)
     = []
  /\ ordenesActuales
       (cambiarEstadoOrden P ordenId nuevoEstado (Resuelve tt) get st)
     = ordenesActuales (cargarOrdenes P get st)
  /\ peticiones
       (cambiarEstadoOrden P ordenId nuevoEstado (Rechaza message) get st)
     = PATCH ("/pedidos/" +:+ Number_toString P ordenId +:+ "/estado")
             nuevoEstado
       :: peticiones st
  /\ ordenesActuales
       (cambiarEstadoOrden P ordenId nuevoEstado (Rechaza message) get st)
     = ordenesActuales st
  /\ ordenSeleccionada
       (cambiarEstadoOrden P ordenId nuevoEstado (Rechaza message) get st)
     = ordenSeleccionada st
  /\ dom (cambiarEstadoOrden P ordenId nuevoEstado (Rechaza message) get st)
     = poner_mensaje
         (alerta "danger" ("Error al actualizar orden: " +:+ message))
         (dom st)
  /\ mensaje_container
       (dom (cambiarEstadoOrden P ordenId nuevoEstado (Rechaza message)
               get st))
     = match mensaje_container (dom st) with
       | Some _ =>
           Some
             (salto
              +:+ html "      <div class=`alert alert-danger alert-dismissible fade show` role=`alert`>"
              +:+ salto
              +:+ "        Error al actualizar orden: " +:+ message +:+ salto
              +:+ html "        <button type=`button` class=`btn-close` data-bs-dismiss=`alert` aria-label=`Close`></button>"
              +:+ salto
              +:+ "      </div>" +:+ salto
              +:+ "    ")
       | None => None
       end
  /\ ordenes_container_innerHTML
       (dom (cambiarEstadoOrden P ordenId nuevoEstado (Rechaza message)
               get st))
     = ordenes_container_innerHTML (dom st)
  /\ ordenes_container_display
       (dom (cambiarEstadoOrden P ordenId nuevoEstado (Rechaza message)
               get st))
     = ordenes_container_display (dom st)
  /\ ordenes_vacias_display
       (dom (cambiarEstadoOrden P ordenId nuevoEstado (Rechaza message)
               get st))
     = ordenes_vacias_display (dom st).
Proof.
  unfold cambiarEstadoOrden.
  split; [| split; [| split; [| split]]].
  - destruct get as [v | m]; unfold cargarOrdenes, renderizarOrdenes;
      simpl; [destruct (length _ =? 0)%nat |]; reflexivity.
  - unfold cargarOrdenes, renderizarOrdenes. simpl.
    destruct (length _ =? 0)%nat; reflexivity.
  - unfold cargarOrdenes, renderizarOrdenes. simpl.
    destruct (length _ =? 0)%nat; reflexivity.
  - destruct get as [v | m]; unfold cargarOrdenes, renderizarOrdenes;
      simpl; [destruct (length _ =? 0)%nat |]; reflexivity.
  - repeat split.
Qed.

End Propiedades.

(** * Instances *)

(** The card of an order on its way has the explicit button only. *)
Lemma acciones_de_la_tarjeta_muestra :
  boton_siguiente navegador_muestra (orden_simple 3 "en_camino" None) = ""
  /\ boton_entregado navegador_muestra (orden_simple 3 "en_camino" None)
     = html "<button class=`btn btn-success btn-sm w-100 mt-2` onclick=`cambiarEstadoOrden(3, 'entregado')`>Marcar Entregado</button>"
  /\ boton_siguiente navegador_muestra (orden_simple 4 "entregado" None) = ""
  /\ boton_entregado navegador_muestra (orden_simple 4 "entregado" None) = "".
Proof.
  destruct (acciones_de_la_tarjeta navegador_muestra) as (H1 & H2 & _).
  destruct (H1 (orden_simple 3 "en_camino" None) eq_refl) as (A1 & A2 & _).
  destruct (H2 (orden_simple 4 "entregado" None) eq_refl) as (B1 & B2 & _).
  split; [exact A1 |]. split; [exact A2 |]. split; [exact B1 | exact B2].
Defined.

(** C1 as stated fails on an order that is on its way: the card has no
    button of the descriptor, so it does not show two actions. *)
Lemma en_camino_una_sola_accion :
  boton_siguiente navegador_muestra (orden_simple 3 "en_camino" None) = ""
  /\ ~ (boton_siguiente navegador_muestra (orden_simple 3 "en_camino" None)
          <> ""
        /\ boton_entregado navegador_muestra (orden_simple 3 "en_camino" None)
          <> "").
Proof. split; [reflexivity |]. intros [H _]. now apply H. Qed.

(** C3 as stated fails on order 77: the ticket ends with the closing
    rule, not with the total, and its price line is indented. *)
Lemma ticket_77_no_termina_en_total :
  last (lineas_ticket navegador_muestra orden_77)
    = Some "========================================"
  /\ ~ Sufijo "TOTAL: $44.200" (generarTicket navegador_muestra orden_77)
  /\ "Precio: $39.200" ∉ lineas_ticket navegador_muestra orden_77.
Proof.
  split; [reflexivity |]. split.
  - intros H. apply (sufijo_ultimo _ _ "0"%char) in H; [| reflexivity].
    vm_compute in H. discriminate H.
  - intros H. apply list_elem_of_In in H. vm_compute in H.
    repeat (destruct H as [H | H]; [discriminate H |]). exact H.
Qed.

(** An order with no optional property and no items. *)
Lemma generarTicket_omite_opcionales_muestra :
  lineas_instrucciones (orden_simple 1 "pendiente" None) = []
  /\ lineas_eta navegador_muestra (orden_simple 1 "pendiente" None) = []
  /\ lineas_ticket navegador_muestra (orden_simple 1 "pendiente" None)
     = lineas_cabecera navegador_muestra (orden_simple 1 "pendiente" None)
       ++ lineas_direccion (orden_simple 1 "pendiente" None)
       ++ lineas_totales navegador_muestra (orden_simple 1 "pendiente" None)
       ++ [ "Estado: Pendiente"; "Método de pago: No especificado"; "";
            "========================================" ].
Proof.
  destruct (generarTicket_omite_opcionales navegador_muestra
              (orden_simple 1 "pendiente" None))
    as (_ & H1 & H2 & _ & _ & _ & H6).
  split; [exact (H1 eq_refl) |]. split; [exact (H2 eq_refl) |].
  exact (H6 eq_refl eq_refl eq_refl eq_refl).
Defined.

(** Order 77 seen from two panels that hold it among different orders. *)
Lemma generarTicket_puro_muestra :
  List.find (fun o => Orden.id o =? 77)
    (ordenesActuales (panel_muestra [orden_77])) = Some orden_77
  /\ List.find (fun o => Orden.id o =? 77)
       (ordenesActuales (panel_muestra (pedidos_muestra ++ [orden_77])))
     = Some orden_77
  /\ ticket_contenido
       (dom (verTicket navegador_muestra 77
               (panel_muestra (pedidos_muestra ++ [orden_77]))))
     = ticket_contenido
         (dom (verTicket navegador_muestra 77 (panel_muestra [orden_77]))).
Proof.
  split; [reflexivity |]. split; [reflexivity |].
  exact (proj1 (proj2 (proj2
    (generarTicket_puro navegador_muestra 77 orden_77
       (panel_muestra [orden_77])
       (panel_muestra (pedidos_muestra ++ [orden_77]))
       eq_refl eq_refl)))).
Defined.



Example vista_muestra :
  map Orden.id (ordenes_visibles navegador_muestra "todos" pedidos_muestra)
  = [2; 1; 3].
Proof. vm_compute. reflexivity. Qed.

(** * Further properties of the panel *)

Section Recorrido.

Variable P : Plataforma.

Lemma destino_accion_casos (s : string) :
  destino_accion s = None
  \/ s ∈ ["pendiente"; "confirmado"; "en_preparacion"; "en_camino"].
Proof.
  unfold destino_accion.
  destruct (hay_bool (mostrarBotonEstado (obtenerInfoEstadoCocina s))) eqn:E.
  - right. apply mostrarBoton_casos in E.
    rewrite !elem_of_cons in *. tauto.
  - destruct (String.eqb_spec s "en_camino") as [-> | _]; [right | left].
    + rewrite !elem_of_cons. tauto.
    + reflexivity.
Qed.

Lemma info_de_cocina :
  obtenerInfoEstadoCocina "pendiente"
  = {| texto := Some "Pendiente"; clase := Some "bg-secondary";
       colorBorder := Some "secondary"; mostrarBotonEstado := Some true;
       botonTexto := Some "Confirmar Pedido"; botonClase := Some "primary";
       siguienteEstado := Some "confirmado" |}
  /\ obtenerInfoEstadoCocina "confirmado"
     = {| texto := Some "Confirmado"; clase := Some "bg-primary";
          colorBorder := Some "primary"; mostrarBotonEstado := Some true;
          botonTexto := Some "Iniciar Preparación";
          botonClase := Some "warning";
          siguienteEstado := Some "en_preparacion" |}
  /\ obtenerInfoEstadoCocina "en_preparacion"
     = {| texto := Some "En Preparación";
          clase := Some "bg-warning text-dark";
          colorBorder := Some "warning"; mostrarBotonEstado := Some true;
          botonTexto := Some "Listo para Envío"; botonClase := Some "info";
          siguienteEstado := Some "en_camino" |}
  /\ obtenerInfoEstadoCocina "en_camino"
     = {| texto := Some "En Camino"; clase := Some "bg-info";
          colorBorder := Some "info"; mostrarBotonEstado := Some false;
          botonTexto := None; botonClase := None;
          siguienteEstado := None |}.
Proof. repeat split; vm_compute; reflexivity. Qed.

(** X1: the status button of a card carries the status that
    [destino_accion] names, and a card without destination has no status
    button.  Each destination is a status of [estados] other than the
    order's own; the buttons lead pendiente, confirmado, en_preparacion,
    en_camino, entregado and stop there: from any status at most four
    uses reach a status without button. *)
Theorem recorrido_de_estados :
  (forall o : Orden.t,
     match destino_accion (Orden.estado o) with
     | Some d =>
         Infijo (html "onclick=`cambiarEstadoOrden("
                 +:+ Number_toString P (Orden.id o) +:+ ", '" +:+ d
                 +:+ html "')`>")
                (tarjeta P o)
     | None => boton_siguiente P o = "" /\ boton_entregado P o = ""
     end)
  /\ (forall s d : string,
        destino_accion s = Some d -> is_Some (estados !! d) /\ d <> s)
  /\ (forall s : string, destino_accion (avanzar 4 s) = None)
  /\ map (fun n => avanzar n "pendiente") [0; 1; 2; 3; 4; 5]%nat
     = [ "pendiente"; "confirmado"; "en_preparacion"; "en_camino";
         "entregado"; "entregado" ].
Proof.
  split; [| split; [| split]].
  - intros o. destruct (destino_accion_casos (Orden.estado o)) as [E | E].
    + rewrite E. revert E. unfold destino_accion, boton_siguiente,
        boton_entregado.
      destruct (hay_bool _); [discriminate |].
      destruct (String.eqb _ _); [discriminate | tauto].
    + rewrite !elem_of_cons, elem_of_nil in E.
      unfold tarjeta, boton_siguiente, boton_entregado.
      generalize (tarjeta_cuerpo P o) (Number_toString P (Orden.id o)).
      intros cuerpo n.
      destruct info_de_cocina as (I1 & I2 & I3 & I4).
      destruct E as [E|[E|[E|[E|[]]]]]; rewrite E; apply infijo_saltar;
        [rewrite I1 | rewrite I2 | rewrite I3 | rewrite I4].
      * exists (html "<button class=`btn btn-primary btn-sm w-100` "),
          ("Confirmar Pedido</button></div></div></div></div>").
        cbn -[String.append html]. rewrite !append_assoc. reflexivity.
      * exists (html "<button class=`btn btn-warning btn-sm w-100` "),
          ("Iniciar Preparación</button></div></div></div></div>").
        cbn -[String.append html]. rewrite !append_assoc. reflexivity.
      * exists (html "<button class=`btn btn-info btn-sm w-100` "),
          ("Listo para Envío</button></div></div></div></div>").
        cbn -[String.append html]. rewrite !append_assoc. reflexivity.
      * exists (html "<button class=`btn btn-success btn-sm w-100 mt-2` "),
          ("Marcar Entregado</button></div></div></div></div>").
        cbn -[String.append html]. rewrite !append_assoc. reflexivity.
  - intros s d H. destruct (destino_accion_casos s) as [E | E];
      [congruence |].
    rewrite !elem_of_cons, elem_of_nil in E.
    destruct E as [->|[->|[->|[->|[]]]]]; vm_compute in H;
      injection H as <-; (split; [eexists; reflexivity | discriminate]).
  - intros s. destruct (destino_accion_casos s) as [E | E].
    + simpl. now rewrite E.
    + rewrite !elem_of_cons, elem_of_nil in E.
      destruct E as [->|[->|[->|[->|[]]]]]; vm_compute; reflexivity.
  - vm_compute. reflexivity.
Qed.

End Recorrido.

Section Vista.

Variable P : Plataforma.

(** X2: drawing the list is idempotent, and it touches only the
    container of the cards and the two display styles: the orders, the
    filter, the selection, the requests, the preview and the message
    stay as they were.  An empty view hides the container without
    clearing its markup and shows the empty panel; a view with orders
    shows the container with one card for each order, in the order of
    the view, and hides the empty panel. *)
Theorem renderizarOrdenes_idempotente (st : Estado) :
  renderizarOrdenes P (renderizarOrdenes P st) = renderizarOrdenes P st
  /\ ordenesActuales (renderizarOrdenes P st) = ordenesActuales st
  /\ filtroActual (renderizarOrdenes P st) = filtroActual st
  /\ ordenSeleccionada (renderizarOrdenes P st) = ordenSeleccionada st
  /\ peticiones (renderizarOrdenes P st) = peticiones st
  /\ ticket_contenido (dom (renderizarOrdenes P st))
     = ticket_contenido (dom st)
  /\ modalTicket_visible (dom (renderizarOrdenes P st))
     = modalTicket_visible (dom st)
  /\ mensaje_container (dom (renderizarOrdenes P st))
     = mensaje_container (dom st)
  /\ ventanas_impresion (dom (renderizarOrdenes P st))
     = ventanas_impresion (dom st)
  /\ ordenes_container_display (dom (renderizarOrdenes P st))
     = match ordenes_visibles P (filtroActual st) (ordenesActuales st) with
       | [] => "none"
       | _ :: _ => "block"
       end
  /\ ordenes_vacias_display (dom (renderizarOrdenes P st))
     = match ordenes_visibles P (filtroActual st) (ordenesActuales st) with
       | [] => "block"
       | _ :: _ => "none"
       end
  /\ ordenes_container_innerHTML (dom (renderizarOrdenes P st))
     = match ordenes_visibles P (filtroActual st) (ordenesActuales st) with
       | [] => ordenes_container_innerHTML (dom st)
       | _ :: _ =>
           String.concat ""
             (map (tarjeta P)
                (ordenes_visibles P (filtroActual st) (ordenesActuales st)))
       end.
Proof.
  unfold renderizarOrdenes.
  destruct (ordenes_visibles P (filtroActual st) (ordenesActuales st))
    as [|o l] eqn:E; simpl; rewrite E; simpl; repeat split.
Qed.

Lemma append_no_vacio (a b : string) : b <> "" -> a +:+ b <> "".
Proof. destruct a; [trivial | discriminate]. Qed.

Lemma linea_item_no_vacia (item : Item.t) : linea_item P item <> "".
Proof.
  unfold linea_item.
  destruct (Item.tamanio item) as [t|];
    [destruct (hay_texto (Tamanio.nombre t)) |];
    rewrite ?append_assoc; apply append_no_vacio; discriminate.
Qed.

Lemma resumen_item_no_vacio (item : Item.t) : resumen_item P item <> "".
Proof.
  unfold resumen_item.
  assert (forall a b, a <> "" -> a +:+ b <> "") as H
    by (intros [|c a] b Ha; [congruence | discriminate]).
  destruct (0 <? length (extras_de item))%nat,
    (hay_texto (Item.notas item));
    repeat apply H; apply linea_item_no_vacia.
Qed.

(** X3: the card says 'Sin items' exactly for an order without items:
    the summary of the items is the empty text only when there is no
    item, since each item contributes its quantity and name. *)
Theorem tarjeta_sin_items (o : Orden.t) :
  (String.concat "<br>" (map (resumen_item P) (items_de o)) = ""
   <-> items_de o = [])
  /\ Infijo
       (html "<p class=`mb-2`><strong>Items:</strong><br>"
        +:+ (if decide (items_de o = []) then "Sin items"
             else String.concat "<br>" (map (resumen_item P) (items_de o)))
        +:+ "</p>")
       (tarjeta P o).
Proof.
  assert (String.concat "<br>" (map (resumen_item P) (items_de o)) = ""
          <-> items_de o = []) as H.
  { destruct (items_de o) as [|i [|j r]]; simpl; split;
      try reflexivity; try discriminate; intros E; exfalso.
    - now apply (resumen_item_no_vacio i).
    - destruct (resumen_item P i) eqn:Ei;
        [now apply (resumen_item_no_vacio i) | discriminate E]. }
  split; [exact H |].
  unfold tarjeta. apply infijo_izquierda. unfold tarjeta_cuerpo.
  destruct (decide (items_de o = [])) as [E | E].
  - rewrite E. simpl map. simpl String.concat. simpl String.eqb.
    repeat first [ apply infijo_aqui3 | apply infijo_saltar ].
  - destruct (String.eqb_spec
                (String.concat "<br>" (map (resumen_item P) (items_de o)))
                "") as [E' | E']; [now apply H in E' |].
    repeat first [ apply infijo_aqui3 | apply infijo_saltar ].
Qed.

(** A reload that fails leaves the list, the view styles, the selection
    and the message alone, and writes its error into the container. *)
Lemma cargarOrdenes_rechazada (message : string) (st : Estado) :
  cargarOrdenes P (Rechaza message) st
  = con_dom
      (poner_container
         (html "<div class=`alert alert-danger`>"
          +:+ "<strong>Error al cargar órdenes:</strong> " +:+ message
          +:+ "<br><small>Verifica que la API esté funcionando y tengas permisos de administrador/cocinero.</small>"
          +:+ "</div>"))
      (con_peticion (GET "/pedidos") st).
Proof. unfold cargarOrdenes. now destruct st as [? ? ? [] ?]. Qed.

(** X4: no path of cargarOrdenes shows the container again after an
    empty view hid it, except a reload that returns orders to show.
    When the view of the panel is empty (container hidden, empty panel
    shown) and the reload fails, the error is written into the hidden
    container: its display stays 'none' and the empty panel stays
    shown, with the list unchanged. *)
Theorem cargarOrdenes_error_oculto (message : string) (st : Estado) :
  ordenes_visibles P (filtroActual st) (ordenesActuales st) = [] ->
  let st' := cargarOrdenes P (Rechaza message) (renderizarOrdenes P st) in
  ordenes_container_display (dom st') = "none"
  /\ ordenes_vacias_display (dom st') = "block"
  /\ Infijo ("<strong>Error al cargar órdenes:</strong> " +:+ message)
            (ordenes_container_innerHTML (dom st'))
  /\ ordenesActuales st' = ordenesActuales st
  /\ peticiones st' = GET "/pedidos" :: peticiones st.
Proof.
  intros E. cbv zeta. rewrite cargarOrdenes_rechazada.
  unfold renderizarOrdenes. rewrite E.
  split; [reflexivity |]. split; [reflexivity |].
  split; [| split; reflexivity].
  cbn [ordenes_container_innerHTML dom con_dom con_peticion poner_container].
  apply infijo_saltar.
  exists "",
    ("<br><small>Verifica que la API esté funcionando y tengas permisos de administrador/cocinero.</small>"
     +:+ "</div>").
  rewrite !append_assoc. reflexivity.
Qed.

(** X5: a response to GET /pedidos that is not an array empties the
    list; the panel then shows the empty state and the hidden container
    keeps the spinner markup written when the load began. *)
Theorem cargarOrdenes_no_arreglo (st : Estado) :
  let st' := cargarOrdenes P (Resuelve None) st in
  ordenesActuales st' = []
  /\ ordenes_container_display (dom st') = "none"
  /\ ordenes_vacias_display (dom st') = "block"
  /\ ordenes_container_innerHTML (dom st')
     = html "<div class=`text-center py-5`><div class=`spinner-border text-primary` role=`status`></div><p class=`mt-2`>Cargando órdenes...</p></div>"
  /\ ordenSeleccionada st' = ordenSeleccionada st
  /\ filtroActual st' = filtroActual st.
Proof.
  unfold cargarOrdenes, renderizarOrdenes, ordenes_visibles. simpl.
  assert (filtrar (filtroActual st) [] = []) as ->
    by (unfold filtrar; now destruct (decide _)).
  simpl. repeat split.
Qed.

(** X6: an identifier that no order of the list has makes verTicket
    drop the selection and show nothing: the page, the list and the
    requests stay as they were; imprimirTicket then prints nothing. *)
Theorem verTicket_desconocido (ordenId : Z) (st : Estado) :
  Forall (fun o => Orden.id o <> ordenId) (ordenesActuales st) ->
  ordenSeleccionada (verTicket P ordenId st) = None
  /\ dom (verTicket P ordenId st) = dom st
  /\ ordenesActuales (verTicket P ordenId st) = ordenesActuales st
  /\ peticiones (verTicket P ordenId st) = peticiones st
  /\ imprimirTicket P (verTicket P ordenId st) = verTicket P ordenId st
  /\ ventanas_impresion (dom (imprimirTicket P (verTicket P ordenId st)))
     = ventanas_impresion (dom st).
Proof.
  intros H.
  assert (List.find (fun o => Orden.id o =? ordenId) (ordenesActuales st)
          = None) as E.
  { induction H as [|o l Ho _ IH]; [reflexivity |]. simpl.
    destruct (Z.eqb_spec (Orden.id o) ordenId); [contradiction | exact IH]. }
  unfold verTicket, imprimirTicket. simpl. rewrite E. simpl.
  repeat split.
Qed.

Lemma cambiarEstadoOrden_seleccion (ordenId : Z) (nuevoEstado : string)
    (patch : Respuesta unit) (get : Respuesta (option (list Orden.t)))
    (st : Estado) :
  ordenSeleccionada (cambiarEstadoOrden P ordenId nuevoEstado patch get st)
  = ordenSeleccionada st
  /\ ventanas_impresion
       (dom (cambiarEstadoOrden P ordenId nuevoEstado patch get st))
     = ventanas_impresion (dom st).
Proof.
  unfold cambiarEstadoOrden, cargarOrdenes, renderizarOrdenes.
  destruct patch as [u | m]; [destruct get as [v | m] |]; simpl;
    try destruct (length _ =? 0)%nat; split; reflexivity.
Qed.

(** X7: the selection is a snapshot.  After an order was previewed, a
    status change and the reload that follows it, however they end, do
    not touch the selection: imprimirTicket prints the ticket of the
    order as it was when previewed, not as the reloaded list has it. *)
Theorem imprimirTicket_instantanea (ordenId cambiada : Z)
    (nuevoEstado : string) (patch : Respuesta unit)
    (get : Respuesta (option (list Orden.t))) (orden : Orden.t)
    (st : Estado) :
  List.find (fun o => Orden.id o =? ordenId) (ordenesActuales st)
    = Some orden ->
  ventanas_impresion
    (dom (imprimirTicket P
            (cambiarEstadoOrden P cambiada nuevoEstado patch get
               (verTicket P ordenId st))))
  = documento_impresion P orden :: ventanas_impresion (dom st).
Proof.
  intros H. unfold imprimirTicket.
  destruct (cambiarEstadoOrden_seleccion cambiada nuevoEstado patch get
              (verTicket P ordenId st)) as [Hs Hv].
  rewrite Hs. unfold verTicket at 1. simpl. rewrite H. simpl.
  rewrite Hv. unfold verTicket. simpl. now rewrite H.
Qed.

Lemma filtrar_cons (filtro : string) (o : Orden.t) (l : list Orden.t) :
  filtrar filtro (o :: l)
  = (if decide (filtro = "todos")
     then if decide (Orden.estado o ∈ estados_cocina) then [o] else []
     else if decide (Orden.estado o = filtro) then [o] else [])
    ++ filtrar filtro l.
Proof.
  unfold filtrar. destruct (decide (filtro = "todos"));
    rewrite filter_cons; now destruct (decide _).
Qed.

(** X8: the 'todos' view is made of the four kitchen views: it has as
    many orders as the views of pendiente, confirmado, en_preparacion
    and en_camino together, and each of those views is part of it. *)
Theorem todos_suma_de_vistas (ordenes : list Orden.t) :
  length (ordenes_visibles P "todos" ordenes)
  = (length (ordenes_visibles P "pendiente" ordenes)
     + length (ordenes_visibles P "confirmado" ordenes)
     + length (ordenes_visibles P "en_preparacion" ordenes)
     + length (ordenes_visibles P "en_camino" ordenes))%nat
  /\ Forall
       (fun s =>
          ordenes_visibles P s ordenes ⊆ ordenes_visibles P "todos" ordenes)
       estados_cocina.
Proof.
  split.
  - unfold ordenes_visibles. rewrite !Array_sort_perm.
    induction ordenes as [|o l IH]; [reflexivity |].
    rewrite !filtrar_cons, !length_app, IH. clear IH.
    unfold estados_cocina.
    repeat (destruct (decide _); try discriminate); simpl;
      rewrite ?elem_of_cons, ?elem_of_nil in *; try lia;
      exfalso; intuition congruence.
  - apply Forall_forall. intros s Hs o Ho.
    unfold ordenes_visibles in *. rewrite Array_sort_perm in *.
    apply elem_of_filtrar in Ho as [Ho E]. apply elem_of_filtrar.
    split; [exact Ho |]. simpl.
    destruct (decide (s = "todos")) as [-> | _]; [exact E | now subst].
Qed.

Lemma Array_sort_ya_ordenada {A : Type} (comparefn : A -> A -> option Z)
    (k : A -> Z) (ok : A -> Prop) (l : list A) :
  (forall x y, ok x -> ok y -> comparefn x y = Some (k y - k x)) ->
  Forall ok l -> StronglySorted (fun a b => k b <= k a) l ->
  Array_sort comparefn l = l.
Proof.
  intros Hc Hl Hs. induction l as [|x r IH]; [reflexivity |].
  apply Forall_cons in Hl as [Hx Hr].
  apply StronglySorted_cons in Hs as [Hxr Hs].
  simpl. rewrite IH by assumption.
  destruct r as [|y r']; [reflexivity |]. simpl.
  apply Forall_cons in Hr as [Hy _]. apply Forall_cons in Hxr as [Hxy _].
  rewrite (Hc x y Hx Hy). simpl.
  destruct (Z.leb_spec (k y - k x) 0); [reflexivity | lia].
Qed.

(** X9: the view is a fixed point: filtering and sorting the orders of
    a view again, under the same filter, returns that view, when every
    order in it has a valid date. *)
Theorem vista_estable (filtro : string) (ordenes : list Orden.t) :
  Forall (fun o => is_Some (tiempo P o)) (filtrar filtro ordenes) ->
  ordenes_visibles P filtro (ordenes_visibles P filtro ordenes)
  = ordenes_visibles P filtro ordenes.
Proof.
  intros Hval.
  assert (filtrar filtro (ordenes_visibles P filtro ordenes)
          = ordenes_visibles P filtro ordenes) as Hf.
  { assert (forall l : list Orden.t,
              Forall (fun o => o ∈ filtrar filtro ordenes) l ->
              filtrar filtro l = l) as Hid.
    { induction l as [|o l IH]; intros Hl.
      - unfold filtrar. now destruct (decide _).
      - apply Forall_cons in Hl as [Ho Hl].
        rewrite filtrar_cons, IH by exact Hl.
        apply elem_of_filtrar in Ho as [_ Ho].
        destruct (decide (filtro = "todos"));
          now destruct (decide _). }
    apply Hid, Forall_forall. intros o Ho.
    unfold ordenes_visibles in Ho. now rewrite Array_sort_perm in Ho. }
  unfold ordenes_visibles at 1. rewrite Hf.
  apply (Array_sort_ya_ordenada (por_fecha P) (tiempo_ms P)
           (fun o => is_Some (tiempo P o))).
  - apply por_fecha_clave.
  - unfold ordenes_visibles. now rewrite Array_sort_perm.
  - apply (Array_sort_ordenada (por_fecha P) (tiempo_ms P)
             (fun o => is_Some (tiempo P o)) (por_fecha_clave P) _ Hval).
Qed.

End Vista.

(** ** Instances of the further properties *)

Lemma cargarOrdenes_error_oculto_muestra :
  ordenes_visibles navegador_muestra
    (filtroActual (panel_muestra [orden_simple 4 "entregado" None]))
    (ordenesActuales (panel_muestra [orden_simple 4 "entregado" None]))
  = []
  /\ ordenes_container_display
       (dom (cargarOrdenes navegador_muestra (Rechaza "Failed to fetch")
               (renderizarOrdenes navegador_muestra
                  (panel_muestra [orden_simple 4 "entregado" None]))))
     = "none".
Proof.
  split; [reflexivity |].
  exact (proj1
    (cargarOrdenes_error_oculto navegador_muestra "Failed to fetch"
       (panel_muestra [orden_simple 4 "entregado" None]) eq_refl)).
Defined.

Lemma verTicket_desconocido_muestra :
  Forall (fun o => Orden.id o <> 99)
         (ordenesActuales (panel_muestra pedidos_muestra))
  /\ ordenSeleccionada
       (verTicket navegador_muestra 99 (panel_muestra pedidos_muestra))
     = None.
Proof.
  assert (Forall (fun o => Orden.id o <> 99)
            (ordenesActuales (panel_muestra pedidos_muestra))) as H.
  { repeat constructor; simpl; lia. }
  split; [exact H |].
  exact (proj1
    (verTicket_desconocido navegador_muestra 99
       (panel_muestra pedidos_muestra) H)).
Defined.

Lemma imprimirTicket_instantanea_muestra :
  List.find (fun o => Orden.id o =? 77)
    (ordenesActuales (panel_muestra [orden_77])) = Some orden_77
  /\ ventanas_impresion
       (dom (imprimirTicket navegador_muestra
               (cambiarEstadoOrden navegador_muestra 77 "confirmado"
                  (Resuelve tt)
                  (Resuelve
                     (Some [orden_simple 77 "confirmado" None]))
                  (verTicket navegador_muestra 77
                     (panel_muestra [orden_77])))))
     = [ documento_impresion navegador_muestra orden_77 ].
Proof.
  split; [reflexivity |].
  exact (imprimirTicket_instantanea navegador_muestra 77 77 "confirmado"
           (Resuelve tt)
           (Resuelve (Some [orden_simple 77 "confirmado" None]))
           orden_77 (panel_muestra [orden_77]) eq_refl).
Defined.

Lemma vista_estable_muestra :
  Forall (fun o => is_Some (tiempo navegador_muestra o))
         (filtrar "todos" pedidos_muestra)
  /\ ordenes_visibles navegador_muestra "todos"
       (ordenes_visibles navegador_muestra "todos" pedidos_muestra)
     = ordenes_visibles navegador_muestra "todos" pedidos_muestra.
Proof.
  assert (Forall (fun o => is_Some (tiempo navegador_muestra o))
            (filtrar "todos" pedidos_muestra)) as H.
  { vm_compute. repeat constructor; eexists; reflexivity. }
  split; [exact H |].
  exact (vista_estable navegador_muestra "todos" pedidos_muestra H).
Defined.

(** * Further properties: the client of the API and the session *)

Section Cliente.

Variable P : Plataforma.

Lemma includes_cons (buscado : string) (c : ascii) (s : string) :
  includes buscado (String c s)
  = String.prefix buscado (String c s) || includes buscado s.
Proof. reflexivity. Qed.

Lemma prefix_otra_letra (a c : ascii) (n s : string) :
  a <> c -> String.prefix (String a n) (String c s) = false.
Proof. intros H. cbn [String.prefix]. now destruct (ascii_dec a c). Qed.

Lemma includes_login_saltar (c : ascii) (s : string) :
  c <> "/"%char ->
  includes "/auth/login" (String c s) = includes "/auth/login" s.
Proof.
  intros Hc. rewrite includes_cons.
  change "/auth/login" with (String "/" "auth/login") at 1.
  now rewrite prefix_otra_letra by congruence.
Qed.

Lemma includes_login_sin_barra (d rest : string) :
  Forall (fun c => c <> "/"%char) (list_ascii_of_string d) ->
  includes "/auth/login" (d +:+ rest) = includes "/auth/login" rest.
Proof.
  induction d as [|c d IH]; intros H; [reflexivity |].
  inversion H; subst.
  change (String c d +:+ rest) with (String c (d +:+ rest)).
  rewrite includes_login_saltar by assumption. auto.
Qed.

Lemma uint_sin_barra (d : Decimal.uint) :
  Forall (fun c => c <> "/"%char)
    (list_ascii_of_string (NilEmpty.string_of_uint d)).
Proof. induction d; simpl; constructor; auto; discriminate. Qed.

Lemma cifras_sin_barra (z : Z) :
  Forall (fun c => c <> "/"%char) (list_ascii_of_string (cifras z)).
Proof.
  unfold cifras, NilZero.string_of_uint.
  destruct (N.to_uint _); try apply uint_sin_barra.
  repeat constructor; discriminate.
Qed.

Lemma cifras_no_auth (z : Z) (rest : string) :
  String.prefix "auth/login" (cifras z +:+ rest) = false.
Proof.
  unfold cifras, NilZero.string_of_uint.
  destruct (N.to_uint _); reflexivity.
Qed.

(** The endpoint of a status change never reads as a login. *)
Lemma endpoint_estado_no_login (z : Z) :
  seguro z = true ->
  includes "/auth/login" ("/pedidos/" +:+ Number_toString P z +:+ "/estado")
  = false.
Proof.
  intros Hz. unfold Number_toString. rewrite Hz.
  set (X := (signo z +:+ cifras z) +:+ "/estado").
  change ("/pedidos/" +:+ X)
    with (String "/" (String "p" (String "e" (String "d" (String "i"
           (String "d" (String "o" (String "s" (String "/" X))))))))).
  rewrite includes_cons.
  change (String.prefix "/auth/login" (String "/" (String "p" ?r)))
    with false.
  rewrite !includes_login_saltar by discriminate.
  rewrite includes_cons.
  assert (String.prefix "/auth/login" (String "/" X) = false) as ->.
  { subst X. unfold signo. destruct (z <? 0); [reflexivity |].
    change (String.prefix "/auth/login" (String "/" ?r))
      with (String.prefix "auth/login" r).
    change ("" +:+ cifras z) with (cifras z). apply cifras_no_auth. }
  subst X. rewrite append_assoc.
  rewrite includes_login_sin_barra
    by (unfold signo; destruct (z <? 0); repeat constructor; discriminate).
  rewrite includes_login_sin_barra by apply cifras_sin_barra.
  reflexivity.
Qed.

Lemma cargarOrdenes_resto (respuesta : Respuesta (option (list Orden.t)))
    (st : Estado) :
  mensaje_container (dom (cargarOrdenes P respuesta st))
  = mensaje_container (dom st)
  /\ peticiones (cargarOrdenes P respuesta st) = GET "/pedidos" :: peticiones st
  /\ filtroActual (cargarOrdenes P respuesta st) = filtroActual st.
Proof.
  unfold cargarOrdenes, renderizarOrdenes.
  destruct respuesta as [v | m]; cbn [con_dom con_peticion con_ordenes
    filtroActual ordenesActuales dom peticiones poner_container
    mensaje_container].
  - destruct (length _ =? 0)%nat; repeat split.
  - repeat split.
Qed.

Lemma logout_token (nav : Navegador) :
  ApiClient.getToken (ApiClient.logout nav) = None.
Proof.
  unfold ApiClient.logout, ApiClient.getToken. cbv zeta.
  repeat match goal with |- context [if ?b then _ else _] => destruct b end;
    cbn [ir_a con_localStorage localStorage]; apply lookup_delete_eq.
Qed.


(** X11: the token and the session.  A token that was stored is read
    back, and the session counts as open unless the token is the empty
    text; storing an absent token (a login response without
    access_token) stores the text 'undefined', which counts as an open
    session.  Closing the session removes the token and no other key,
    and assigns one of the three addresses of the login page. *)
Theorem sesion_y_token (nav : Navegador) (token : string) :
  ApiClient.getToken (ApiClient.setToken (Some token) nav) = Some token
  /\ ApiClient.isAuthenticated (ApiClient.setToken (Some token) nav)
     = negb (String.eqb token "")
  /\ ApiClient.getToken (ApiClient.setToken None nav) = Some "undefined"
  /\ ApiClient.isAuthenticated (ApiClient.setToken None nav) = true
  /\ ApiClient.getToken (ApiClient.logout nav) = None
  /\ ApiClient.isAuthenticated (ApiClient.logout nav) = false
  /\ (forall k : string, k <> "access_token" ->
        localStorage (ApiClient.logout nav) !! k = localStorage nav !! k)
  /\ (forall k : string, k <> "access_token" ->
        localStorage (ApiClient.setToken (Some token) nav) !! k
        = localStorage nav !! k)
  /\ exists destino : string,
       href (ApiClient.logout nav) = destino :: href nav
       /\ destino ∈ [ "login.html"; "../tu-cuenta/login.html";
                      "tu-cuenta/login.html" ].
Proof.
  assert (ApiClient.getToken (ApiClient.setToken (Some token) nav)
          = Some token) as H1
    by (unfold ApiClient.getToken, ApiClient.setToken; cbn;
        apply lookup_insert_eq).
  assert (ApiClient.getToken (ApiClient.setToken None nav)
          = Some "undefined") as H2
    by (unfold ApiClient.getToken, ApiClient.setToken; cbn;
        apply lookup_insert_eq).
  split; [exact H1 |].
  split; [unfold ApiClient.isAuthenticated; now rewrite H1 |].
  split; [exact H2 |].
  split; [unfold ApiClient.isAuthenticated; now rewrite H2 |].
  split; [apply logout_token |].
  split; [unfold ApiClient.isAuthenticated; now rewrite logout_token |].
  split.
  { intros k Hk. unfold ApiClient.logout. cbv zeta.
    repeat match goal with |- context [if ?b then _ else _] => destruct b end;
      cbn [ir_a con_localStorage localStorage];
      now apply lookup_delete_ne. }
  split.
  { intros k Hk. unfold ApiClient.setToken.
    cbn [con_localStorage localStorage]. now apply lookup_insert_ne. }
  unfold ApiClient.logout. cbv zeta.
  repeat match goal with |- context [if ?b then _ else _] => destruct b end;
    cbn [ir_a con_localStorage href]; eexists; (split; [reflexivity |]);
    rewrite !elem_of_cons; tauto.
Qed.

(** X12: the Authorization header of a request.  A header of that name
    passed by the caller is sent as it is; otherwise the header is
    'Bearer ' followed by the stored token when the session is open, and
    there is none when it is not, as after logout.  The address is the
    base of the API followed by the endpoint. *)
Theorem cabecera_de_autorizacion {B : Type} (nav : Navegador)
    (endpoint metodo : string) (cuerpo : option B)
    (cabeceras : gmap string string) :
  headers (ApiClient.config nav endpoint metodo cuerpo cabeceras)
    !! "Authorization"
  = match cabeceras !! "Authorization" with
    | Some v => Some v
    | None =>
        match localStorage nav !! "access_token" with
        | Some token =>
            if String.eqb token "" then None else Some ("Bearer " +:+ token)
        | None => None
        end
    end
  /\ headers (ApiClient.config (ApiClient.logout nav) endpoint metodo cuerpo ∅)
       !! "Authorization" = None
  /\ url (ApiClient.config nav endpoint metodo cuerpo cabeceras)
     = "http://localhost:8000/api/v1" +:+ endpoint.
Proof.
  assert (forall nav' : Navegador,
    headers (ApiClient.config nav' endpoint metodo cuerpo cabeceras)
      !! "Authorization"
    = match cabeceras !! "Authorization" with
      | Some v => Some v
      | None =>
          match localStorage nav' !! "access_token" with
          | Some token =>
              if String.eqb token "" then None
              else Some ("Bearer " +:+ token)
          | None => None
          end
      end) as H.
  { intros nav'. unfold ApiClient.config, ApiClient.getToken. cbv zeta.
    cbn [headers]. rewrite lookup_union.
    destruct (cabeceras !! "Authorization") as [v |] eqn:E.
    - unfold hay_texto.
      destruct (localStorage nav' !! "access_token") as [t |];
        [destruct (String.eqb t "") |]; cbn [negb];
        match goal with
        | |- context [?m !! "Authorization"] =>
            destruct (m !! "Authorization")
        end; reflexivity.
    - unfold hay_texto.
      destruct (localStorage nav' !! "access_token") as [t |];
        [destruct (String.eqb t "") |]; cbn [negb texto_de default].
      + reflexivity.
      + now rewrite lookup_insert_eq.
      + reflexivity. }
  split; [apply H |]. split; [| reflexivity].
  unfold ApiClient.config. cbv zeta. cbn [headers].
  fold (ApiClient.getToken (ApiClient.logout nav)).
  rewrite logout_token. cbn [hay_texto].
  rewrite lookup_union, lookup_empty. reflexivity.
Qed.

(** X13: a status change whose PATCH is answered with 401.  The client
    closes the session and returns null without an error, so the panel
    reports the change as done and reloads the list: the message area
    holds the success alert although the store changed nothing, the
    token is gone, the login page is the address assigned first, and
    the GET of the reload is issued after the PATCH. *)
Theorem cambiar_sesion_expirada (ordenId : Z) (nuevoEstado : string)
    (json : Respuesta (Datos unit))
    (pedidos : Fetch (option (list Orden.t))) (pg : Pagina) :
  seguro ordenId = true ->
  let pg' :=
    cambiar_en_pagina P ordenId nuevoEstado (FetchResponde 401 json) pedidos pg in
  mensaje_container (dom (panel pg'))
  = match mensaje_container (dom (panel pg)) with
    | Some _ =>
        Some (salto
              +:+ html "      <div class=`alert alert-success alert-dismissible fade show` role=`alert`>"
              +:+ salto +:+ "        Orden #" +:+ signo ordenId
              +:+ cifras ordenId +:+ " actualizada a: "
              +:+ texto_de (texto (obtenerInfoEstadoCocina nuevoEstado))
              +:+ salto
              +:+ html "        <button type=`button` class=`btn-close` data-bs-dismiss=`alert` aria-label=`Close`></button>"
              +:+ salto +:+ "      </div>" +:+ salto +:+ "    ")
    | None => None
    end
  /\ peticiones (panel pg')
     = GET "/pedidos"
       :: PATCH ("/pedidos/" +:+ signo ordenId +:+ cifras ordenId +:+ "/estado")
            nuevoEstado
       :: peticiones (panel pg)
  /\ ApiClient.getToken (navegador pg') = None
  /\ exists despues : list string,
       href (navegador pg')
       = despues ++ href (ApiClient.logout (navegador pg)).
Proof.
  intros Hz. cbv zeta. unfold cambiar_en_pagina.
  assert (ApiClient.request P (navegador pg)
            ("/pedidos/" +:+ Number_toString P ordenId +:+ "/estado")
            (FetchResponde 401 json)
          = (ApiClient.logout (navegador pg), Resuelve None)) as ->
    by (unfold ApiClient.request;
        now rewrite (endpoint_estado_no_login _ Hz)).
  destruct (ApiClient.request P (ApiClient.logout (navegador pg)) "/pedidos"
              pedidos) as [nav' r] eqn:R.
  cbn [panel navegador].
  unfold cambiarEstadoOrden. cbv beta iota zeta.
  destruct (cargarOrdenes_resto (pedidos_de r)
              (mostrarExito
                 ("Orden #" +:+ Number_toString P ordenId
                  +:+ " actualizada a: "
                  +:+ texto_de (texto (obtenerInfoEstadoCocina nuevoEstado)))
                 (con_peticion
                    (PATCH ("/pedidos/" +:+ Number_toString P ordenId
                            +:+ "/estado") nuevoEstado)
                    (panel pg)))) as (M & Q & _).
  rewrite M, Q. unfold Number_toString. rewrite Hz.
  split.
  { cbn [mostrarExito con_dom con_peticion dom poner_mensaje
         mensaje_container].
    destruct (mensaje_container (dom (panel pg))); [| reflexivity].
    unfold alerta. rewrite !append_assoc. reflexivity. }
  split.
  { cbn [mostrarExito con_dom con_peticion peticiones].
    rewrite !append_assoc. reflexivity. }
  unfold ApiClient.request in R.
  destruct pedidos as [m | status json'].
  - injection R as <- <-. split; [apply logout_token |]. now exists [].
  - change (includes "/auth/login" "/pedidos") with false in R.
    cbn [negb] in R. rewrite andb_true_r in R.
    destruct (status =? 401).
    + injection R as <- <-. split; [apply logout_token |].
      unfold ApiClient.logout at 1. cbv zeta.
      repeat match goal with
             | |- context [if ?b then _ else _] => destruct b
             end;
        cbn [ir_a con_localStorage href]; now eexists [_].
    + destruct json' as [data | m];
        [destruct (negb (ApiClient.ok status)) |];
        injection R as <- <-;
        (split; [apply logout_token | now exists []]).
Qed.

(** X14: a load of the list that is answered with 401.  The client
    closes the session and returns null, which is not an array: the
    list is emptied and the panel shows the empty state instead of an
    error, while the token is removed and, from a page under /admin/,
    the address of the login page is assigned. *)
Theorem cargar_sesion_expirada (json : Respuesta (Datos (option (list Orden.t))))
    (pg : Pagina) :
  let pg' := cargar_en_pagina P (FetchResponde 401 json) pg in
  ordenesActuales (panel pg') = []
  /\ ordenes_container_display (dom (panel pg')) = "none"
  /\ ordenes_vacias_display (dom (panel pg')) = "block"
  /\ ordenes_container_innerHTML (dom (panel pg'))
     = html "<div class=`text-center py-5`><div class=`spinner-border text-primary` role=`status`></div><p class=`mt-2`>Cargando órdenes...</p></div>"
  /\ ApiClient.getToken (navegador pg') = None
  /\ (includes "/tu-cuenta/" (pathname (navegador pg)) = false ->
      includes "/admin/" (pathname (navegador pg)) = true ->
      href (navegador pg')
      = "../tu-cuenta/login.html" :: href (navegador pg)).
Proof.
  cbv zeta. unfold cargar_en_pagina, ApiClient.request.
  change (includes "/auth/login" "/pedidos") with false.
  cbn [Z.eqb Pos.eqb andb negb panel navegador pedidos_de].
  unfold cargarOrdenes, renderizarOrdenes, ordenes_visibles.
  cbn [default con_ordenes con_dom con_peticion ordenesActuales filtroActual].
  assert (forall f, filtrar f [] = []) as ->
    by (intros f; unfold filtrar; now destruct (decide _)).
  cbn. repeat split.
  - apply logout_token.
  - intros H1 H2. unfold ApiClient.logout. cbv zeta.
    cbn [con_localStorage pathname]. rewrite H1, H2.
    rewrite orb_true_r. reflexivity.
Qed.

(** X15: a load of the list that the server refuses with a text in
    detail (a 403, a 500).  The text reaches the page: the container
    holds the error alert with it, the list stays as it was, and the
    browser, token included, is left alone. *)
Theorem cargar_error_del_servidor (status : Z)
    (data : Datos (option (list Orden.t))) (texto_error : string)
    (pg : Pagina) :
  status <> 401 -> ~ 200 <= status <= 299 ->
  detail data = Some (DetalleTexto texto_error) -> texto_error <> "" ->
  let pg' := cargar_en_pagina P (FetchResponde status (Resuelve data)) pg in
  ordenes_container_innerHTML (dom (panel pg'))
  = html "<div class=`alert alert-danger`>"
    +:+ "<strong>Error al cargar órdenes:</strong> " +:+ texto_error
    +:+ "<br><small>Verifica que la API esté funcionando y tengas permisos de administrador/cocinero.</small>"
    +:+ "</div>"
  /\ ordenesActuales (panel pg') = ordenesActuales (panel pg)
  /\ ordenes_container_display (dom (panel pg'))
     = ordenes_container_display (dom (panel pg))
  /\ navegador pg' = navegador pg.
Proof.
  intros H401 Hok Hd Ht. cbv zeta.
  unfold cargar_en_pagina, ApiClient.request, ApiClient.ok.
  destruct (Z.eqb_spec status 401) as [|_]; [contradiction |].
  cbn [andb].
  assert ((200 <=? status) && (status <=? 299) = false) as ->.
  { destruct (Z.leb_spec 200 status); destruct (Z.leb_spec status 299);
      try reflexivity. lia. }
  cbn [negb panel navegador pedidos_de].
  unfold ApiClient.errorMessage. rewrite Hd.
  destruct (String.eqb_spec texto_error "") as [|_]; [contradiction |].
  unfold cargarOrdenes. cbn. repeat split.
Qed.

(** X16: actualizarOrdenes reports success whatever the reload did.
    After it the message area holds the alert 'Órdenes actualizadas',
    also when the reload failed and the container holds the error. *)
Theorem actualizarOrdenes_siempre_exito
    (respuesta : Respuesta (option (list Orden.t))) (st : Estado) :
  mensaje_container (dom (actualizarOrdenes P respuesta st))
  = match mensaje_container (dom st) with
    | Some _ =>
        Some (salto
              +:+ html "      <div class=`alert alert-success alert-dismissible fade show` role=`alert`>"
              +:+ salto +:+ "        Órdenes actualizadas" +:+ salto
              +:+ html "        <button type=`button` class=`btn-close` data-bs-dismiss=`alert` aria-label=`Close`></button>"
              +:+ salto +:+ "      </div>" +:+ salto +:+ "    ")
    | None => None
    end
  /\ peticiones (actualizarOrdenes P respuesta st)
     = GET "/pedidos" :: peticiones st
  /\ forall message : string, respuesta = Rechaza message ->
       ordenes_container_innerHTML (dom (actualizarOrdenes P respuesta st))
       = html "<div class=`alert alert-danger`>"
         +:+ "<strong>Error al cargar órdenes:</strong> " +:+ message
         +:+ "<br><small>Verifica que la API esté funcionando y tengas permisos de administrador/cocinero.</small>"
         +:+ "</div>"
       /\ ordenesActuales (actualizarOrdenes P respuesta st)
          = ordenesActuales st.
Proof.
  unfold actualizarOrdenes.
  destruct (cargarOrdenes_resto respuesta st) as (M & Q & _).
  split.
  { unfold mostrarExito. cbn [con_dom dom poner_mensaje mensaje_container].
    rewrite M. destruct (mensaje_container (dom st)); reflexivity. }
  split; [exact Q |].
  intros message ->. unfold cargarOrdenes. cbn. split; reflexivity.
Qed.

Lemma request_datos {A : Type} (nav nav' : Navegador) (endpoint : string)
    (respuesta : Fetch A) (d : A) :
  ApiClient.request P nav endpoint respuesta = (nav', Resuelve (Some d)) ->
  exists status data,
    respuesta = FetchResponde status (Resuelve data)
    /\ 200 <= status <= 299 /\ carga data = d.
Proof.
  unfold ApiClient.request, ApiClient.ok.
  destruct respuesta as [m | status [data | m]]; try discriminate.
  - destruct ((status =? 401) && _); [discriminate |].
    destruct (Z.leb_spec 200 status) as [L1 | L1];
      destruct (Z.leb_spec status 299) as [L2 | L2];
      cbn [andb negb]; try discriminate.
    intros E. injection E as _ <-.
    eexists _, _. split; [reflexivity |]. split; [lia | reflexivity].
  - destruct ((status =? 401) && _); discriminate.
Qed.

(** X17: who gets the list when the page loads.  The handler asks for
    the orders only with a token at hand and after GET /auth/me
    resolved, with a status from 200 to 299, with a user whose rol is
    admin, administrador or cocinero.  In every other case it leaves
    the panel as it was, asks for no orders, and the address assigned
    last is the login page or the index. *)
Theorem al_cargar_permisos (me : Fetch Usuario)
    (pedidos : Fetch (option (list Orden.t))) (pg : Pagina) :
  let pg' := al_cargar P me pedidos pg in
  (peticiones (panel pg')
   = GET "/pedidos" :: GET "/auth/me" :: peticiones (panel pg)
   /\ ApiClient.isAuthenticated (navegador pg) = true
   /\ exists status data r,
        me = FetchResponde status (Resuelve data)
        /\ 200 <= status <= 299
        /\ rol (carga data) = Some r
        /\ r ∈ [ "admin"; "administrador"; "cocinero" ])
  \/ ((peticiones (panel pg') = peticiones (panel pg)
       \/ peticiones (panel pg') = GET "/auth/me" :: peticiones (panel pg))
      /\ ordenesActuales (panel pg') = ordenesActuales (panel pg)
      /\ dom (panel pg') = dom (panel pg)
      /\ exists destino anteriores,
           href (navegador pg') = destino :: anteriores
           /\ destino ∈ [ "../tu-cuenta/login.html"; "../index.html" ]).
Proof.
  cbv zeta. unfold al_cargar.
  destruct (ApiClient.isAuthenticated (navegador pg)) eqn:Au; cbn [negb].
  2: { right. cbn. split; [now left |]. repeat split.
       eexists _, _. split; [reflexivity |]. rewrite !elem_of_cons. tauto. }
  destruct (ApiClient.request P (navegador pg) "/auth/me" me) as [nav r] eqn:R.
  destruct r as [[u |] | m].
  - destruct (rol u) as [ro |] eqn:Ro.
    + destruct (bool_decide_reflect
                  (ro ∈ [ "admin"; "administrador"; "cocinero" ])) as [In | In];
        cbn [negb].
      * left. unfold cargar_en_pagina. cbn [panel navegador].
        destruct (ApiClient.request P nav "/pedidos" pedidos) as [nav' r'].
        cbn [panel].
        destruct (cargarOrdenes_resto (pedidos_de r')
                    (con_peticion (GET "/auth/me") (panel pg)))
          as (_ & Q & _).
        rewrite Q. split; [reflexivity |]. split; [reflexivity |].
        destruct (request_datos _ _ _ _ _ R) as (status & data & -> & Hs & <-).
        eexists _, _, _. repeat split; eauto; lia.
      * right. cbn. split; [now right |]. repeat split.
        eexists _, _. split; [reflexivity |]. rewrite !elem_of_cons. tauto.
    + right. cbn. split; [now right |]. repeat split.
      eexists _, _. split; [reflexivity |]. rewrite !elem_of_cons. tauto.
  - right. cbn. split; [now right |]. repeat split.
    eexists _, _. split; [reflexivity |]. rewrite !elem_of_cons. tauto.
  - right. cbn. split; [now right |]. repeat split.
    eexists _, _. split; [reflexivity |]. rewrite !elem_of_cons. tauto.
Qed.

(** X18: the page loaded with a token that the server no longer
    accepts.  GET /auth/me is answered with 401: the client removes the
    token and assigns the login page, and the handler, given null for
    the user, then shows the alert about permissions and assigns the
    index, which is the address assigned last.  No orders are asked
    for. *)
Theorem al_cargar_sesion_expirada (json : Respuesta (Datos Usuario))
    (pedidos : Fetch (option (list Orden.t))) (pg : Pagina) :
  ApiClient.isAuthenticated (navegador pg) = true ->
  includes "/tu-cuenta/" (pathname (navegador pg)) = false ->
  includes "/admin/" (pathname (navegador pg)) = true ->
  let pg' := al_cargar P (FetchResponde 401 json) pedidos pg in
  href (navegador pg')
  = "../index.html" :: "../tu-cuenta/login.html" :: href (navegador pg)
  /\ alertas (navegador pg')
     = "No tienes permisos para acceder al panel de cocina"
       :: alertas (navegador pg)
  /\ ApiClient.getToken (navegador pg') = None
  /\ peticiones (panel pg') = GET "/auth/me" :: peticiones (panel pg)
  /\ ordenesActuales (panel pg') = ordenesActuales (panel pg)
  /\ dom (panel pg') = dom (panel pg).
Proof.
  intros Au H1 H2. cbv zeta. unfold al_cargar. rewrite Au. cbn [negb].
  unfold ApiClient.request.
  change (includes "/auth/login" "/auth/me") with false.
  cbn [Z.eqb Pos.eqb andb negb panel navegador].
  assert (ApiClient.logout (navegador pg)
          = ir_a "../tu-cuenta/login.html"
              (con_localStorage (delete "access_token") (navegador pg))) as ->.
  { unfold ApiClient.logout. cbv zeta. cbn [con_localStorage pathname].
    rewrite H1, H2. now rewrite orb_true_r. }
  cbn. repeat split. apply lookup_delete_eq.
Qed.

End Cliente.

(** ** Instances of the properties of the client *)

Lemma cambiar_sesion_expirada_muestra :
  seguro 7 = true
  /\ ApiClient.getToken
       (navegador
          (cambiar_en_pagina navegador_muestra 7 "en_preparacion"
             (FetchResponde 401 (Rechaza "Unexpected end of JSON input"))
             (FetchRechaza "Failed to fetch")
             (pagina_muestra pedidos_muestra)))
     = None.
Proof.
  split; [reflexivity |].
  exact (proj1 (proj2 (proj2
    (cambiar_sesion_expirada navegador_muestra 7 "en_preparacion"
       (Rechaza "Unexpected end of JSON input")
       (FetchRechaza "Failed to fetch")
       (pagina_muestra pedidos_muestra) eq_refl)))).
Defined.

Lemma cargar_error_del_servidor_muestra :
  403 <> 401
  /\ ~ 200 <= 403 <= 299
  /\ "No autorizado" <> ""
  /\ navegador
       (cargar_en_pagina navegador_muestra
          (FetchResponde 403
             (Resuelve {| detail := Some (DetalleTexto "No autorizado");
                          message := None;
                          carga := None |}))
          (pagina_muestra pedidos_muestra))
     = sesion_muestra.
Proof.
  assert (403 <> 401) as H1 by lia.
  assert (~ 200 <= 403 <= 299) as H2 by lia.
  assert ("No autorizado" <> "") as H3 by discriminate.
  split; [exact H1 |]. split; [exact H2 |]. split; [exact H3 |].
  exact (proj2 (proj2 (proj2
    (cargar_error_del_servidor navegador_muestra 403
       {| detail := Some (DetalleTexto "No autorizado");
          message := None;
          carga := None |}
       "No autorizado" (pagina_muestra pedidos_muestra)
       H1 H2 eq_refl H3)))).
Defined.

Lemma al_cargar_sesion_expirada_muestra :
  ApiClient.isAuthenticated (navegador (pagina_muestra [])) = true
  /\ includes "/tu-cuenta/" (pathname (navegador (pagina_muestra []))) = false
  /\ includes "/admin/" (pathname (navegador (pagina_muestra []))) = true
  /\ href
       (navegador
          (al_cargar navegador_muestra
             (FetchResponde 401 (Rechaza "Unexpected end of JSON input"))
             (FetchRechaza "Failed to fetch") (pagina_muestra [])))
     = [ "../index.html"; "../tu-cuenta/login.html" ].
Proof.
  assert (ApiClient.isAuthenticated (navegador (pagina_muestra [])) = true)
    as H1 by (vm_compute; reflexivity).
  split; [exact H1 |]. split; [reflexivity |]. split; [reflexivity |].
  exact (proj1
    (al_cargar_sesion_expirada navegador_muestra
       (Rechaza "Unexpected end of JSON input")
       (FetchRechaza "Failed to fetch") (pagina_muestra [])
       H1 eq_refl eq_refl)).
Defined.

(** * Further properties: the cart in localStorage *)

Section Carrito.

Variable P : Plataforma.
Variable J : Carro.

Lemma cargarCarrito_sin_clave (nav : Navegador) :
  localStorage nav !! "carritoLaFornace" = None ->
  cargarCarrito J nav = ([], nav).
Proof. intros H. unfold cargarCarrito. now rewrite H. Qed.

Lemma actualizarBadgeCarrito_casos (nav : Navegador) :
  actualizarBadgeCarrito P J nav
  = match carrito_badge nav with
    | Some _ =>
        poner_badge
          (Number_toString P (cantidad_total J (cargarCarrito J nav).1))
          (cargarCarrito J nav).2
    | None => nav
    end.
Proof.
  unfold actualizarBadgeCarrito.
  destruct (carrito_badge nav); [| reflexivity].
  now destruct (cargarCarrito J nav).
Qed.


(** X20: an emptied cart.  After vaciarCarrito the cart reads as empty,
    the badge, on a page that has one, shows 0, and every other key of
    localStorage, the token among them, is as before. *)
Theorem vaciarCarrito_vacia (nav : Navegador) :
  (cargarCarrito J (vaciarCarrito P J nav)).1 = []
  /\ carrito_badge (vaciarCarrito P J nav)
     = match carrito_badge nav with
       | Some _ => Some "0"
       | None => None
       end
  /\ localStorage (vaciarCarrito P J nav) !! "carritoLaFornace" = None
  /\ (forall k : string, k <> "carritoLaFornace" ->
        localStorage (vaciarCarrito P J nav) !! k = localStorage nav !! k)
  /\ href (vaciarCarrito P J nav) = href nav.
Proof.
  assert (vaciarCarrito P J nav
          = match carrito_badge nav with
            | Some _ =>
                poner_badge "0"
                  (con_localStorage (delete "carritoLaFornace") nav)
            | None => con_localStorage (delete "carritoLaFornace") nav
            end) as ->.
  { unfold vaciarCarrito. rewrite actualizarBadgeCarrito_casos.
    change (carrito_badge (con_localStorage ?f nav))
      with (carrito_badge nav).
    destruct (carrito_badge nav); [| reflexivity].
    rewrite cargarCarrito_sin_clave by (cbn; apply lookup_delete_eq).
    reflexivity. }
  split.
  { rewrite cargarCarrito_sin_clave; [reflexivity |].
    destruct (carrito_badge nav); cbn; apply lookup_delete_eq. }
  split; [destruct (carrito_badge nav) eqn:B; cbn; now rewrite B |].
  split; [destruct (carrito_badge nav); cbn; apply lookup_delete_eq |].
  split; [| now destruct (carrito_badge nav)].
  intros k Hk. destruct (carrito_badge nav); cbn; now apply lookup_delete_ne.
Qed.

(** X21: a saved cart is read back.  When JSON reads its own text of
    the cart back as that cart, guardarCarrito followed by
    cargarCarrito returns the cart that was saved, the badge shows the
    sum of the quantities, and the other keys of localStorage are as
    before. *)
Theorem guardarCarrito_ida_y_vuelta (carrito : list (Articulo J))
    (nav : Navegador) :
  JSON_parse J (JSON_stringify J carrito) = Some (Some carrito) ->
  JSON_stringify J carrito <> "" ->
  JSON_stringify J carrito <> "undefined" ->
  JSON_stringify J carrito <> "null" ->
  cargarCarrito J (guardarCarrito P J (Some carrito) nav)
  = (carrito, guardarCarrito P J (Some carrito) nav)
  /\ carrito_badge (guardarCarrito P J (Some carrito) nav)
     = match carrito_badge nav with
       | Some _ => Some (Number_toString P (cantidad_total J carrito))
       | None => None
       end
  /\ localStorage (guardarCarrito P J (Some carrito) nav) !! "carritoLaFornace"
     = Some (JSON_stringify J carrito)
  /\ (forall k : string, k <> "carritoLaFornace" ->
        localStorage (guardarCarrito P J (Some carrito) nav) !! k
        = localStorage nav !! k).
Proof.
  intros Hp H1 H2 H3.
  assert (forall nav' : Navegador,
    localStorage nav' !! "carritoLaFornace" = Some (JSON_stringify J carrito) ->
    cargarCarrito J nav' = (carrito, nav')) as Lee.
  { intros nav' E. unfold cargarCarrito. rewrite E.
    destruct (String.eqb_spec (JSON_stringify J carrito) "");
      [contradiction |].
    destruct (String.eqb_spec (JSON_stringify J carrito) "undefined");
      [contradiction |].
    destruct (String.eqb_spec (JSON_stringify J carrito) "null");
      [contradiction |].
    cbn [orb]. now rewrite Hp. }
  assert (localStorage (guardarCarrito P J (Some carrito) nav)
          = <["carritoLaFornace" := JSON_stringify J carrito]>
              (localStorage nav)
          /\ carrito_badge (guardarCarrito P J (Some carrito) nav)
             = match carrito_badge nav with
               | Some _ => Some (Number_toString P (cantidad_total J carrito))
               | None => None
               end) as [L B].
  { unfold guardarCarrito. cbv zeta. rewrite actualizarBadgeCarrito_casos.
    change (carrito_badge (con_localStorage ?f nav))
      with (carrito_badge nav).
    cbn [default].
    destruct (carrito_badge nav) eqn:Ba; [| cbn; now rewrite Ba].
    rewrite Lee by (cbn; apply lookup_insert_eq).
    cbn. now rewrite Ba. }
  split; [apply Lee; rewrite L; apply lookup_insert_eq |].
  split; [exact B |].
  split; [rewrite L; apply lookup_insert_eq |].
  intros k Hk; rewrite L; now apply lookup_insert_ne.
Qed.

(** X22: limpiarDatosAplicacion forgets the cart, the session, the user
    and the extras, and nothing else: afterwards the cart reads as
    empty, the session is closed, the four keys are absent and every
    other key of localStorage is as before. *)
Theorem limpiarDatosAplicacion_limpia (nav : Navegador) :
  cargarCarrito J (limpiarDatosAplicacion nav)
  = ([], limpiarDatosAplicacion nav)
  /\ ApiClient.isAuthenticated (limpiarDatosAplicacion nav) = false
  /\ (forall k : string,
        k ∈ [ "carritoLaFornace"; "access_token"; "usuarioLaFornace";
              "extrasLaFornace" ] ->
        localStorage (limpiarDatosAplicacion nav) !! k = None)
  /\ (forall k : string,
        k ∉ [ "carritoLaFornace"; "access_token"; "usuarioLaFornace";
              "extrasLaFornace" ] ->
        localStorage (limpiarDatosAplicacion nav) !! k
        = localStorage nav !! k)
  /\ href (limpiarDatosAplicacion nav) = href nav
  /\ carrito_badge (limpiarDatosAplicacion nav) = carrito_badge nav.
Proof.
  assert (forall k : string,
    k ∈ [ "carritoLaFornace"; "access_token"; "usuarioLaFornace";
          "extrasLaFornace" ] ->
    localStorage (limpiarDatosAplicacion nav) !! k = None) as H.
  { intros k Hk. unfold limpiarDatosAplicacion.
    cbn [con_localStorage localStorage].
    rewrite !lookup_delete_None.
    rewrite !elem_of_cons, elem_of_nil in Hk. intuition auto. }
  split.
  { apply cargarCarrito_sin_clave, H. rewrite !elem_of_cons. tauto. }
  split.
  { unfold ApiClient.isAuthenticated, ApiClient.getToken.
    rewrite H; [reflexivity |]. rewrite !elem_of_cons. tauto. }
  split; [exact H |].
  split; [| split; reflexivity].
  intros k Hk. unfold limpiarDatosAplicacion.
  cbn [con_localStorage localStorage].
  rewrite !elem_of_cons, elem_of_nil in Hk.
  rewrite !lookup_delete_ne by (intros E; apply Hk; subst; auto 10).
  reflexivity.
Qed.

End Carrito.

(** ** Instances of the properties of the cart *)

Lemma guardarCarrito_ida_y_vuelta_muestra :
  JSON_parse carro_muestra (JSON_stringify carro_muestra [2; 1])
  = Some (Some [2; 1])
  /\ JSON_stringify carro_muestra [2; 1] = "[2,1]"
  /\ carrito_badge
       (guardarCarrito navegador_muestra carro_muestra (Some [2; 1])
          sesion_muestra)
     = Some "3"
  /\ (cargarCarrito carro_muestra
        (guardarCarrito navegador_muestra carro_muestra (Some [2; 1])
           sesion_muestra)).1
     = [2; 1].
Proof.
  assert (JSON_stringify carro_muestra [2; 1] <> "") as H1 by discriminate.
  assert (JSON_stringify carro_muestra [2; 1] <> "undefined") as H2
    by discriminate.
  assert (JSON_stringify carro_muestra [2; 1] <> "null") as H3
    by discriminate.
  split; [reflexivity |]. split; [reflexivity |].
  destruct (guardarCarrito_ida_y_vuelta navegador_muestra carro_muestra
              [2; 1] sesion_muestra eq_refl H1 H2 H3) as (R & B & _).
  split; [exact B |]. exact (f_equal fst R).
Defined.

(** * Further properties: the validators *)

Lemma Coincide_Sec_inv (a b : Regex) (s : list N) :
  Coincide (Sec a b) s ->
  exists s1 s2, s = s1 ++ s2 /\ Coincide a s1 /\ Coincide b s2.
Proof. inversion 1; subst; eauto. Qed.

Lemma Coincide_Alt_inv (a b : Regex) (s : list N) :
  Coincide (Alt a b) s -> Coincide a s \/ Coincide b s.
Proof. inversion 1; subst; auto. Qed.

Lemma Coincide_Clase_inv (p : N -> bool) (s : list N) :
  Coincide (Clase p) s -> exists c, s = [c] /\ p c = true.
Proof. inversion 1; subst; eauto. Qed.

Lemma Coincide_Vacia_inv (s : list N) : Coincide Vacia s -> s = [].
Proof. now inversion 1. Qed.

Lemma Coincide_Nada_inv (s : list N) : Coincide Nada s -> False.
Proof. inversion 1. Qed.

Lemma Coincide_Estrella_cons (r : Regex) (c : N) (s : list N) :
  Coincide (Estrella r) (c :: s) ->
  exists s1 s2,
    s = s1 ++ s2 /\ Coincide r (c :: s1) /\ Coincide (Estrella r) s2.
Proof.
  intros H. remember (Estrella r) as e eqn:Ee.
  remember (c :: s) as t eqn:Et.
  induction H as [| | | | | |r' s1 s2 H1 _ H2 IH2]; try discriminate.
  injection Ee as ->.
  destruct s1 as [|c' s1].
  - apply IH2; auto.
  - injection Et as -> <-. eauto.
Qed.

Lemma anulable_ok (r : Regex) : anulable r = true <-> Coincide r [].
Proof.
  induction r as [| |p|a IHa b IHb|a IHa b IHb|a IHa]; cbn [anulable].
  - split; [discriminate | intros H; now apply Coincide_Nada_inv in H].
  - split; [constructor | reflexivity].
  - split; [discriminate |].
    intros H. apply Coincide_Clase_inv in H as (c & E & _). discriminate.
  - rewrite andb_true_iff, IHa, IHb. split.
    + intros [Ha Hb]. exact (CSec a b [] [] Ha Hb).
    + intros H. apply Coincide_Sec_inv in H as (s1 & s2 & E & H1 & H2).
      symmetry in E. apply app_eq_nil in E as [-> ->]. auto.
  - rewrite orb_true_iff, IHa, IHb. split.
    + intros [H | H]; [now apply CAltI | now apply CAltD].
    + apply Coincide_Alt_inv.
  - split; [constructor | reflexivity].
Qed.

Lemma derivar_ok (c : N) (r : Regex) :
  forall s, Coincide (derivar c r) s <-> Coincide r (c :: s).
Proof.
  induction r as [| |p|a IHa b IHb|a IHa b IHb|a IHa]; intros s;
    cbn [derivar].
  - split; intros H; now apply Coincide_Nada_inv in H.
  - split; intros H; [now apply Coincide_Nada_inv in H |].
    apply Coincide_Vacia_inv in H. discriminate.
  - destruct (p c) eqn:E; split; intros H.
    + apply Coincide_Vacia_inv in H as ->. now constructor.
    + apply Coincide_Clase_inv in H as (c' & E' & _).
      injection E' as -> ->. constructor.
    + now apply Coincide_Nada_inv in H.
    + apply Coincide_Clase_inv in H as (c' & E' & Hp).
      injection E' as -> ->. congruence.
  - assert (Coincide (Sec (derivar c a) b) s
            <-> exists s1 s2, s = s1 ++ s2 /\ Coincide a (c :: s1)
                              /\ Coincide b s2) as Hsec.
    { split.
      - intros H. apply Coincide_Sec_inv in H as (s1 & s2 & -> & H1 & H2).
        apply IHa in H1. eauto.
      - intros (s1 & s2 & -> & H1 & H2). apply IHa in H1.
        now constructor. }
    assert (Coincide (Sec a b) (c :: s)
            <-> (exists s1 s2, s = s1 ++ s2 /\ Coincide a (c :: s1)
                               /\ Coincide b s2)
                \/ (Coincide a [] /\ Coincide b (c :: s))) as Hcons.
    { split.
      - intros H. apply Coincide_Sec_inv in H as (s1 & s2 & E & H1 & H2).
        destruct s1 as [|c' s1].
        + cbn in E. subst s2. auto.
        + injection E as <- ->. left. eauto.
      - intros [(s1 & s2 & -> & H1 & H2) | [H1 H2]].
        + exact (CSec a b (c :: s1) s2 H1 H2).
        + exact (CSec a b [] (c :: s) H1 H2). }
    rewrite Hcons. destruct (anulable a) eqn:An.
    + split.
      * intros H. apply Coincide_Alt_inv in H as [H | H].
        -- left. now apply Hsec.
        -- right. split; [now apply anulable_ok | now apply IHb].
      * intros [H | [_ H]].
        -- apply CAltI. now apply Hsec.
        -- apply CAltD. now apply IHb.
    + rewrite Hsec. split; [auto |].
      intros [H | [H _]]; [exact H |].
      apply anulable_ok in H. congruence.
  - split; intros H.
    + apply Coincide_Alt_inv in H as [H | H];
        [apply CAltI; now apply IHa | apply CAltD; now apply IHb].
    + apply Coincide_Alt_inv in H as [H | H];
        [apply CAltI; now apply IHa | apply CAltD; now apply IHb].
  - split; intros H.
    + apply Coincide_Sec_inv in H as (s1 & s2 & -> & H1 & H2).
      apply IHa in H1. exact (CEstrellaMas a (c :: s1) s2 H1 H2).
    + apply Coincide_Estrella_cons in H as (s1 & s2 & -> & H1 & H2).
      apply IHa in H1. now constructor.
Qed.

(** The test by derivatives decides the language. *)
Lemma RegExp_test_ok (s : list N) :
  forall r, RegExp_test r s = true <-> Coincide r s.
Proof.
  unfold RegExp_test. induction s as [|c s IH]; intros r; cbn [fold_left].
  - apply anulable_ok.
  - rewrite IH. apply derivar_ok.
Qed.

Lemma Coincide_Estrella_Clase (p : N -> bool) (s : list N) :
  Coincide (Estrella (Clase p)) s <-> Forall (fun c => p c = true) s.
Proof.
  split.
  - intros H. remember (Estrella (Clase p)) as e eqn:Ee.
    induction H as [| | | | | |r s1 s2 H1 _ H2 IH2]; try discriminate.
    + constructor.
    + injection Ee as ->.
      apply Coincide_Clase_inv in H1 as (c & -> & Hc).
      constructor; auto.
  - induction 1 as [|c s Hc _ IH]; [constructor |].
    exact (CEstrellaMas (Clase p) [c] s (CClase p c Hc) IH).
Qed.

Lemma Coincide_Mas_Clase (p : N -> bool) (s : list N) :
  Coincide (Mas (Clase p)) s
  <-> s <> [] /\ Forall (fun c => p c = true) s.
Proof.
  unfold Mas. split.
  - intros H. apply Coincide_Sec_inv in H as (s1 & s2 & -> & H1 & H2).
    apply Coincide_Clase_inv in H1 as (c & -> & Hc).
    apply Coincide_Estrella_Clase in H2.
    split; [discriminate | now constructor].
  - intros [Hn H]. destruct H as [|c s Hc H]; [contradiction |].
    apply (CSec (Clase p) (Estrella (Clase p)) [c] s);
      [now constructor | now apply Coincide_Estrella_Clase].
Qed.

Lemma Coincide_Unidad (u : N) (s : list N) :
  Coincide (Unidad u) s <-> s = [u].
Proof.
  unfold Unidad. split.
  - intros H. apply Coincide_Clase_inv in H as (c & -> & Hc).
    apply N.eqb_eq in Hc. now subst.
  - intros ->. constructor. apply N.eqb_refl.
Qed.

Lemma Coincide_Veces_Clase (p : N -> bool) (n : nat) :
  forall s, Coincide (Veces n (Clase p)) s
            <-> length s = n /\ Forall (fun c => p c = true) s.
Proof.
  induction n as [|n IH]; intros s; cbn [Veces].
  - split.
    + intros H. apply Coincide_Vacia_inv in H as ->. now split.
    + intros [H _]. destruct s; [constructor | discriminate].
  - split.
    + intros H. apply Coincide_Sec_inv in H as (s1 & s2 & -> & H1 & H2).
      apply Coincide_Clase_inv in H1 as (c & -> & Hc).
      apply IH in H2 as [Hl Hf]. cbn. split; [now rewrite Hl |].
      now constructor.
    + intros [Hl Hf]. destruct Hf as [|c s Hc Hf]; [discriminate |].
      cbn in Hl. injection Hl as Hl.
      apply (CSec (Clase p) (Veces n (Clase p)) [c] s);
        [now constructor | now apply IH].
Qed.

(** X23: what validarEmail accepts.  A text passes exactly when it is a
    user, an @, a domain, a full stop and an ending, the three of them
    not empty and free of white space and of @.  So an accepted text
    has exactly one @ and no white space, and its ending may itself
    hold full stops. *)
Theorem validarEmail_forma (email : list N) :
  (validarEmail email = true
   <-> exists usuario dominio final : list N,
         email = usuario ++ [64%N] ++ dominio ++ [46%N] ++ final
         /\ usuario <> [] /\ dominio <> [] /\ final <> []
         /\ Forall (fun c => espacio c = false /\ c <> 64%N)
              (usuario ++ dominio ++ final))
  /\ (validarEmail email = true ->
      Forall (fun c => espacio c = false) email
      /\ length (List.filter (N.eqb 64) email) = 1%nat).
Proof.
  assert (forall c, ni_espacio_ni_arroba c = true
                    <-> espacio c = false /\ c <> 64%N) as Hcl.
  { intros c. unfold ni_espacio_ni_arroba.
    rewrite negb_true_iff, orb_false_iff, N.eqb_neq. tauto. }
  assert (validarEmail email = true
   <-> exists usuario dominio final : list N,
         email = usuario ++ [64%N] ++ dominio ++ [46%N] ++ final
         /\ usuario <> [] /\ dominio <> [] /\ final <> []
         /\ Forall (fun c => espacio c = false /\ c <> 64%N)
              (usuario ++ dominio ++ final)) as Hforma.
  { unfold validarEmail. rewrite RegExp_test_ok. unfold regex_email. split.
    - intros H.
      apply Coincide_Sec_inv in H as (u & s1 & -> & Hu & H).
      apply Coincide_Sec_inv in H as (a & s2 & -> & Ha & H).
      apply Coincide_Sec_inv in H as (d & s3 & -> & Hd & H).
      apply Coincide_Sec_inv in H as (p & f & -> & Hp & Hf).
      apply Coincide_Unidad in Ha as ->. apply Coincide_Unidad in Hp as ->.
      apply Coincide_Mas_Clase in Hu as [Hu1 Hu2].
      apply Coincide_Mas_Clase in Hd as [Hd1 Hd2].
      apply Coincide_Mas_Clase in Hf as [Hf1 Hf2].
      exists u, d, f. repeat split; auto.
      rewrite !Forall_app. repeat split;
        (eapply Forall_impl; [eassumption | intros c Hc; now apply Hcl]).
    - intros (u & d & f & -> & Hu & Hd & Hf & Hall).
      rewrite !Forall_app in Hall. destruct Hall as (Au & Ad & Af).
      assert (forall l, l <> [] ->
                Forall (fun c => espacio c = false /\ c <> 64%N) l ->
                Coincide (Mas (Clase ni_espacio_ni_arroba)) l) as Hmas.
      { intros l Hl Al. apply Coincide_Mas_Clase. split; [exact Hl |].
        eapply Forall_impl; [exact Al | intros c Hc; now apply Hcl]. }
      repeat (apply CSec); auto; now apply Coincide_Unidad. }
  split; [exact Hforma |].
  intros H. apply Hforma in H as (u & d & f & -> & _ & _ & _ & Hall).
  rewrite !Forall_app in Hall. destruct Hall as (Au & Ad & Af).
  assert (forall l, Forall (fun c => espacio c = false /\ c <> 64%N) l ->
            Forall (fun c => espacio c = false) l
            /\ List.filter (N.eqb 64) l = []) as Hl.
  { induction 1 as [|c l [Hc1 Hc2] _ [IH1 IH2]]; [now split |].
    split; [now constructor |]. cbn [List.filter].
    destruct (N.eqb_spec 64 c); [congruence | exact IH2]. }
  destruct (Hl _ Au) as [Eu Fu]. destruct (Hl _ Ad) as [Ed Fd].
  destruct (Hl _ Af) as [Ef Ff].
  split.
  - rewrite !Forall_app. repeat split; auto; repeat constructor.
  - rewrite !List.filter_app, Fu, Fd, Ff. reflexivity.
Qed.

(** X24: what validarTelefono accepts.  White space is dropped
    wherever it stands, and what is left must be a 9 and eight digits,
    preceded by nothing, by 56 or by +56: nine, eleven or twelve
    characters.  The optional white space of the expression never
    matches, since none is left. *)
Theorem validarTelefono_forma (telefono : list N) :
  (validarTelefono telefono = true
   <-> exists prefijo ocho : list N,
         List.filter (fun c => negb (espacio c)) telefono
         = prefijo ++ [57%N] ++ ocho
         /\ prefijo ∈ [ []; [53%N; 54%N]; [43%N; 53%N; 54%N] ]
         /\ length ocho = 8%nat
         /\ Forall (fun c => (48 <= c <= 57)%N) ocho)
  /\ validarTelefono (List.filter (fun c => negb (espacio c)) telefono)
     = validarTelefono telefono.
Proof.
  split.
  2: { unfold validarTelefono. cbv zeta. f_equal.
       induction telefono as [|c l IH]; [reflexivity |].
       cbn [List.filter]. destruct (espacio c) eqn:E; cbn [negb]; [exact IH |].
       cbn [List.filter]. rewrite E. cbn [negb]. now rewrite IH. }
  assert (forall c, digito c = true <-> (48 <= c <= 57)%N) as Hd.
  { intros c. unfold digito. rewrite andb_true_iff, !N.leb_le. tauto. }
  unfold validarTelefono. cbv zeta. rewrite RegExp_test_ok.
  set (limpio := List.filter (fun c => negb (espacio c)) telefono).
  assert (Forall (fun c => espacio c = false) limpio) as Hlimpio.
  { apply List.Forall_forall. intros c Hc.
    apply List.filter_In in Hc as [_ Hc]. now apply negb_true_iff. }
  clearbody limpio. unfold regex_telefono. split.
  - intros H.
    apply Coincide_Sec_inv in H as (pre & s1 & -> & Hpre & H).
    apply Coincide_Sec_inv in H as (esp & s2 & -> & Hesp & H).
    apply Coincide_Sec_inv in H as (nueve & ocho & -> & Hn & Ho).
    apply Coincide_Unidad in Hn as ->.
    apply Coincide_Veces_Clase in Ho as [Hl Ho].
    assert (esp = []) as ->.
    { apply Coincide_Alt_inv in Hesp as [Hesp | Hesp];
        [| now apply Coincide_Vacia_inv in Hesp].
      apply Coincide_Clase_inv in Hesp as (c & -> & Hc).
      rewrite !Forall_app in Hlimpio. destruct Hlimpio as (_ & Hc' & _).
      inversion Hc'; subst. congruence. }
    exists pre, ocho. cbn [app]. split; [reflexivity |].
    split.
    + apply Coincide_Alt_inv in Hpre as [Hpre | Hpre].
      * apply Coincide_Sec_inv in Hpre as (mas & cc & -> & Hmas & Hcc).
        apply Coincide_Sec_inv in Hcc as (c5 & c6 & -> & H5 & H6).
        apply Coincide_Unidad in H5 as ->. apply Coincide_Unidad in H6 as ->.
        apply Coincide_Alt_inv in Hmas as [Hmas | Hmas].
        -- apply Coincide_Unidad in Hmas as ->. cbn.
           rewrite !elem_of_cons. tauto.
        -- apply Coincide_Vacia_inv in Hmas as ->. cbn.
           rewrite !elem_of_cons. tauto.
      * apply Coincide_Vacia_inv in Hpre as ->. rewrite !elem_of_cons. tauto.
    + split; [exact Hl |].
      eapply Forall_impl; [exact Ho | intros c Hc; now apply Hd].
  - intros (pre & ocho & -> & Hpre & Hl & Ho).
    apply CSec.
    + rewrite !elem_of_cons, elem_of_nil in Hpre.
      destruct Hpre as [-> | [-> | [-> | []]]].
      * apply CAltD. constructor.
      * apply CAltI.
        apply (CSec (Opcional (Unidad 43)) (Sec (Unidad 53) (Unidad 54))
                 [] [53%N; 54%N]).
        -- apply CAltD. constructor.
        -- apply (CSec (Unidad 53) (Unidad 54) [53%N] [54%N]);
             now apply Coincide_Unidad.
      * apply CAltI.
        apply (CSec (Opcional (Unidad 43)) (Sec (Unidad 53) (Unidad 54))
                 [43%N] [53%N; 54%N]).
        -- apply CAltI. now apply Coincide_Unidad.
        -- apply (CSec (Unidad 53) (Unidad 54) [53%N] [54%N]);
             now apply Coincide_Unidad.
    + apply (CSec (Opcional (Clase espacio)) _ [] ([57%N] ++ ocho)).
      * apply CAltD. constructor.
      * apply CSec; [now apply Coincide_Unidad |].
        apply Coincide_Veces_Clase. split; [exact Hl |].
        eapply Forall_impl; [exact Ho | intros c Hc; now apply Hd].
Qed.

(** * Further properties: the cart of the first delivery *)

Section CarritoEnMemoria.

Variable JSON_stringify : list Tarea2.Item -> string.

Lemma total_con_uno_mas (l : list Tarea2.Item) (item : Tarea2.Item)
    (almacen almacen' : gmap string string) :
  Tarea2.calcularTotalCarrito
    {| Tarea2.carrito := l ++ [item]; Tarea2.almacen := almacen' |}
  = match Tarea2.calcularTotalCarrito
            {| Tarea2.carrito := l; Tarea2.almacen := almacen |},
          Tarea2.precio item with
    | Some total, Some precio => Some (total + precio * Tarea2.cantidad item)
    | _, _ => None
    end.
Proof.
  unfold Tarea2.calcularTotalCarrito. cbn [Tarea2.carrito].
  now rewrite fold_left_app.
Qed.

Lemma obtenerPizza_conocida (pizzaId : Z) :
  pizzaId ∈ [1; 2; 3] ->
  exists pizza,
    Tarea2.obtenerPizza pizzaId = Some pizza
    /\ Tarea2.pizza_nombre pizza
       = (if pizzaId =? 1 then "Hawaiana"
          else if pizzaId =? 2 then "Pepperoni" else "Vegetariana")
    /\ Tarea2.precio_mediana pizza = (if pizzaId =? 3 then 22000 else 19600)
    /\ Tarea2.precio_grande pizza = (if pizzaId =? 3 then 25900 else 22700).
Proof.
  rewrite !elem_of_cons, elem_of_nil.
  intros [-> | [-> | [-> | []]]]; eexists; repeat split.
Qed.

(** X25: adding a pizza of the menu.  For a pizza 1, 2 or 3 in the
    size mediana or grande, agregarAlCarrito returns true, puts one
    item with the name and the price of the menu at the end of the
    cart, raises the total by that price times the quantity, and
    stores the text of the new cart. *)
Theorem agregarAlCarrito_suma (ahora pizzaId : Z) (tamanio : string)
    (cantidad : Z) (t : Tarea2.Tienda) :
  pizzaId ∈ [1; 2; 3] ->
  tamanio ∈ [ "mediana"; "grande" ] ->
  let r := Tarea2.agregarAlCarrito JSON_stringify ahora pizzaId tamanio
             cantidad t in
  let tarifa :=
    if String.eqb tamanio "mediana"
    then (if pizzaId =? 3 then 22000 else 19600)
    else (if pizzaId =? 3 then 25900 else 22700) in
  r.1 = true
  /\ Tarea2.calcularTotalCarrito r.2
     = match Tarea2.calcularTotalCarrito t with
       | Some total => Some (total + tarifa * cantidad)
       | None => None
       end
  /\ (exists item,
        Tarea2.carrito r.2 = Tarea2.carrito t ++ [item]
        /\ Tarea2.nombre item
           = (if pizzaId =? 1 then "Hawaiana"
              else if pizzaId =? 2 then "Pepperoni" else "Vegetariana")
        /\ Tarea2.precio item = Some tarifa
        /\ Tarea2.cantidad item = cantidad
        /\ Tarea2.id item = ahora)
  /\ Tarea2.almacen r.2 !! "carritoLaFornace"
     = Some (JSON_stringify (Tarea2.carrito r.2))
  /\ forall k : string, k <> "carritoLaFornace" ->
       Tarea2.almacen r.2 !! k = Tarea2.almacen t !! k.
Proof.
  intros Hp Ht. cbv zeta.
  destruct (obtenerPizza_conocida _ Hp) as (pizza & E & Hn & Hm & Hg).
  unfold Tarea2.agregarAlCarrito. rewrite E. cbv zeta. cbn [fst snd].
  assert (Tarea2.precios pizza tamanio
          = Some (if String.eqb tamanio "mediana"
                  then (if pizzaId =? 3 then 22000 else 19600)
                  else (if pizzaId =? 3 then 25900 else 22700))) as Hpr.
  { unfold Tarea2.precios. rewrite !elem_of_cons, elem_of_nil in Ht.
    destruct Ht as [-> | [-> | []]]; cbn; congruence. }
  split; [reflexivity |].
  split.
  { unfold Tarea2.guardarCarrito. cbn [Tarea2.carrito].
    rewrite (total_con_uno_mas _ _ (Tarea2.almacen t)).
    cbn [Tarea2.precio Tarea2.cantidad]. rewrite Hpr.
    destruct t as [l a]. cbn [Tarea2.carrito Tarea2.almacen].
    now destruct (Tarea2.calcularTotalCarrito _). }
  split.
  { eexists. split; [reflexivity |]. cbn. repeat split; auto. }
  split; [cbn; apply lookup_insert_eq |].
  intros k Hk. cbn. now apply lookup_insert_ne.
Qed.

(** X26: what agregarAlCarrito does with what is not on the menu.  A
    pizza other than 1, 2 and 3 is refused: it returns false and the
    cart and the storage stay as they were.  A size other than mediana
    and grande is not refused: the item enters the cart without a
    price, and from then on the total is no number, whatever is added
    next; emptying the cart brings the total back to 0. *)
Theorem agregarAlCarrito_fuera_del_menu (ahora pizzaId : Z)
    (tamanio : string) (cantidad : Z) (t : Tarea2.Tienda) :
  (pizzaId ∉ [1; 2; 3] ->
   Tarea2.agregarAlCarrito JSON_stringify ahora pizzaId tamanio cantidad t
   = (false, t))
  /\ (pizzaId ∈ [1; 2; 3] -> tamanio ∉ [ "mediana"; "grande" ] ->
      let r := Tarea2.agregarAlCarrito JSON_stringify ahora pizzaId tamanio
                 cantidad t in
      r.1 = true
      /\ length (Tarea2.carrito r.2) = S (length (Tarea2.carrito t))
      /\ Tarea2.calcularTotalCarrito r.2 = None
      /\ (forall ahora' pizzaId' tamanio' cantidad',
            Tarea2.calcularTotalCarrito
              (Tarea2.agregarAlCarrito JSON_stringify ahora' pizzaId'
                 tamanio' cantidad' r.2).2 = None)
      /\ Tarea2.calcularTotalCarrito (Tarea2.vaciarCarrito r.2) = Some 0).
Proof.
  split.
  - intros Hp. unfold Tarea2.agregarAlCarrito, Tarea2.obtenerPizza.
    rewrite !elem_of_cons, elem_of_nil in Hp.
    cbn [List.find Tarea2.pizzas Tarea2.pizza_id].
    destruct (Z.eqb_spec 1 pizzaId); [exfalso; apply Hp; auto |].
    destruct (Z.eqb_spec 2 pizzaId); [exfalso; apply Hp; auto |].
    destruct (Z.eqb_spec 3 pizzaId); [exfalso; apply Hp; auto |].
    reflexivity.
  - intros Hp Ht. cbv zeta.
    destruct (obtenerPizza_conocida _ Hp) as (pizza & E & _).
    assert (Tarea2.precios pizza tamanio = None) as Hpr.
    { unfold Tarea2.precios. rewrite !elem_of_cons, elem_of_nil in Ht.
      destruct (String.eqb_spec tamanio "mediana"); [tauto |].
      destruct (String.eqb_spec tamanio "grande"); [tauto |].
      reflexivity. }
    unfold Tarea2.agregarAlCarrito at 1 2 3. rewrite E. cbv zeta.
    cbn [fst snd]. unfold Tarea2.guardarCarrito. cbn [Tarea2.carrito].
    assert (forall a, Tarea2.calcularTotalCarrito
              {| Tarea2.carrito :=
                   Tarea2.carrito t
                   ++ [ {| Tarea2.id := ahora;
                           Tarea2.pizzaId := pizzaId;
                           Tarea2.nombre := Tarea2.pizza_nombre pizza;
                           Tarea2.tamanio := tamanio;
                           Tarea2.precio := Tarea2.precios pizza tamanio;
                           Tarea2.cantidad := cantidad;
                           Tarea2.imagen := Tarea2.pizza_imagen pizza |} ];
                 Tarea2.almacen := a |} = None) as Hnan.
    { intros a. rewrite (total_con_uno_mas _ _ a).
      cbn [Tarea2.precio]. rewrite Hpr. now destruct (Tarea2.calcularTotalCarrito _). }
    split; [reflexivity |].
    split; [rewrite length_app; cbn; lia |].
    split; [apply Hnan |].
    split; [| reflexivity].
    intros ahora' pizzaId' tamanio' cantidad'.
    unfold Tarea2.agregarAlCarrito. rewrite E. cbv zeta.
    destruct (Tarea2.obtenerPizza pizzaId') as [pizza' |]; cbn [snd].
    + unfold Tarea2.guardarCarrito. cbn [Tarea2.carrito Tarea2.almacen].
      rewrite (total_con_uno_mas _ _ (Tarea2.almacen t)).
      now rewrite Hnan.
    + unfold Tarea2.guardarCarrito. cbn [Tarea2.carrito]. apply Hnan.
Qed.

End CarritoEnMemoria.

(** ** Instances of the properties of the first cart *)

Lemma agregarAlCarrito_suma_muestra :
  3 ∈ [1; 2; 3]
  /\ "grande" ∈ [ "mediana"; "grande" ]
  /\ Tarea2.calcularTotalCarrito
       (Tarea2.agregarAlCarrito (fun _ => "[...]") 1759276800000 3 "grande" 2
          {| Tarea2.carrito := []; Tarea2.almacen := ∅ |}).2
     = Some 51800.
Proof.
  assert (3 ∈ [1; 2; 3]) as H1 by (rewrite !elem_of_cons; tauto).
  assert ("grande" ∈ [ "mediana"; "grande" ]) as H2
    by (rewrite !elem_of_cons; tauto).
  split; [exact H1 |]. split; [exact H2 |].
  exact (proj1 (proj2
    (agregarAlCarrito_suma (fun _ => "[...]") 1759276800000 3 "grande" 2
       {| Tarea2.carrito := []; Tarea2.almacen := ∅ |} H1 H2))).
Defined.
